(** * farmwalk: the geodesic area calculator and the GeoJSON extractor

    A shallow embedding of [src/app.py]: the two request handlers
    [calculate_area] (POST /calculate) and [verify_geojson] (POST /verify),
    over the values [request.get_json()] hands them.  Python's dynamic
    typing is kept: a handler receives any decoded JSON value, each
    operation raises the exception Python raises on a value of the wrong
    kind, and the handler's [try ... except Exception] turns it into a
    500 response. *)

From Stdlib Require Import List ZArith String Ascii Bool Lia Floats.
Import ListNotations.
Local Open Scope string_scope.
Local Open Scope list_scope.
Local Open Scope Z_scope.

(** ** Decoded JSON values

    What [json.loads] builds: [None], [bool], [int] (unbounded), [float]
    (a binary64, NaN and the infinities included), [str], [list] and
    [dict].  A [str] is the sequence of its characters.  A [dict] keeps
    insertion order and iterates over its keys, so it is an association
    list; its keys are distinct, and a lookup finds the first binding. *)

#[local] Set Warnings "-register-all".

Inductive pyval : Type :=
| PNone
| PBool (b : bool)
| PInt (z : Z)
| PFloat (f : float)
| PStr (s : string)
| PList (l : list pyval)
| PDict (d : list (string * pyval)).

(** The classes of the exceptions the handlers can meet.  [LibraryError]
    stands for whatever shapely or pyproj raise. *)
Inductive pyexc : Type :=
| AttributeError
| TypeError
| ValueError
| IndexError
| KeyError
| LibraryError (msg : string).

(** What a handler answers: [jsonify(body)] with status 200,
    [jsonify({'error': msg}), 400], or [jsonify({'error': str(e)}), 500]. *)
Inductive response : Type :=
| Ok200 (body : pyval)
| Bad400 (msg : string)
| Err500 (e : pyexc).

(** ** Control flow of a handler body

    A statement of a handler either yields a value, leaves the handler
    with [return jsonify({'error': msg}), 400], or raises. *)

Inductive outcome (A : Type) : Type :=
| Value (a : A)
| Reject (msg : string)
| Raise (e : pyexc).
Arguments Value {A} a.
Arguments Reject {A} msg.
Arguments Raise {A} e.

Definition bind {A B} (m : outcome A) (k : A -> outcome B) : outcome B :=
  match m with
  | Value a => k a
  | Reject msg => Reject msg
  | Raise e => Raise e
  end.

Notation "x <- m ;; k" := (bind m (fun x => k))
  (at level 61, m at next level, right associativity).
Notation "' pat <- m ;; k" := (bind m (fun x => match x with pat => k end))
  (at level 61, pat pattern, m at next level, right associativity).

(** [try: ... return jsonify(v)  except Exception as e: return ..., 500] *)
Definition handle (m : outcome pyval) : response :=
  match m with
  | Value v => Ok200 v
  | Reject msg => Bad400 msg
  | Raise e => Err500 e
  end.

(** A list comprehension: the elements in order, the first exception
    ends it. *)
Fixpoint comprehension {A B} (f : A -> outcome B) (l : list A)
  : outcome (list B) :=
  match l with
  | [] => Value []
  | x :: xs => y <- f x ;; ys <- comprehension f xs ;; Value (y :: ys)
  end.

(** ** The Python operations the handlers use *)

Fixpoint lookup (k : string) (d : list (string * pyval)) : option pyval :=
  match d with
  | [] => None
  | (k', v) :: d' => if String.eqb k k' then Some v else lookup k d'
  end.

(** [v.get(key, default)] *)
Definition py_get (v : pyval) (key : string) (default : pyval)
  : outcome pyval :=
  match v with
  | PDict d =>
      match lookup key d with
      | Some x => Value x
      | None => Value default
      end
  | _ => Raise AttributeError
  end.

(** [len(v)] *)
Definition py_len (v : pyval) : outcome Z :=
  match v with
  | PList l => Value (Z.of_nat (List.length l))
  | PStr s => Value (Z.of_nat (String.length s))
  | PDict d => Value (Z.of_nat (List.length d))
  | _ => Raise TypeError
  end.

Definition chars (s : string) : list pyval :=
  map (fun c => PStr (String c EmptyString)) (list_ascii_of_string s).

(** [iter(v)]: the elements of a list, the characters of a string, the
    keys of a dict. *)
Definition py_iter (v : pyval) : outcome (list pyval) :=
  match v with
  | PList l => Value l
  | PStr s => Value (chars s)
  | PDict d => Value (map (fun kv => PStr (fst kv)) d)
  | _ => Raise TypeError
  end.

(** [a, b = v] *)
Definition unpack2 (v : pyval) : outcome (pyval * pyval) :=
  l <- py_iter v ;;
  match l with
  | [a; b] => Value (a, b)
  | _ => Raise ValueError
  end.

(** [v[0]] *)
Definition py_index0 (v : pyval) : outcome pyval :=
  match v with
  | PList (x :: _) => Value x
  | PList [] => Raise IndexError
  | PStr (String c _) => Value (PStr (String c EmptyString))
  | PStr EmptyString => Raise IndexError
  | PDict _ => Raise KeyError
  | _ => Raise TypeError
  end.

(** [bool(v)] *)
Definition py_truthy (v : pyval) : bool :=
  match v with
  | PNone => false
  | PBool b => b
  | PInt z => negb (z =? 0)
  | PFloat f => negb (PrimFloat.eqb f 0%float)
  | PStr s => negb (String.eqb s "")
  | PList l => negb (Nat.eqb (List.length l) 0)
  | PDict d => negb (Nat.eqb (List.length d) 0)
  end.

(** [v == s] for a string literal [s] *)
Definition py_is_str (v : pyval) (s : string) : bool :=
  match v with
  | PStr s' => String.eqb s' s
  | _ => false
  end.

(** ** POST /verify *)

(** Lines 104-114: the geometry of the first feature of a
    FeatureCollection, of a Feature, or the value itself. *)
Definition first_geometry (geojson_data : pyval) : outcome pyval :=
  t <- py_get geojson_data "type" PNone ;;
  if py_is_str t "FeatureCollection" then
    features <- py_get geojson_data "features" (PList []) ;;
    if negb (py_truthy features) then
      Reject "No features found in GeoJSON"
    else
      f0 <- py_index0 features ;;
      py_get f0 "geometry" (PDict [])
  else
    t' <- py_get geojson_data "type" PNone ;;
    if py_is_str t' "Feature" then
      py_get geojson_data "geometry" (PDict [])
    else
      Value geojson_data.

(** Line 129: the [properties] entry of the answer. *)
Definition first_properties (geojson_data : pyval) : outcome pyval :=
  t <- py_get geojson_data "type" PNone ;;
  if py_is_str t "FeatureCollection" then
    features <- py_get geojson_data "features" (PList [PDict []]) ;;
    f0 <- py_index0 features ;;
    py_get f0 "properties" (PDict [])
  else
    Value (PDict []).

(** Line 125: [[lat, lng] for lng, lat in coordinates] *)
Definition leaflet_order (item : pyval) : outcome pyval :=
  '(lng, lat) <- unpack2 item ;; Value (PList [lat; lng]).

Definition verify_body (data : pyval) : outcome pyval :=
  geojson_data <- py_get data "geojson" (PDict []) ;;
  geometry <- first_geometry geojson_data ;;
  gt <- py_get geometry "type" PNone ;;
  if negb (py_is_str gt "Polygon") then
    Reject "Only Polygon geometry supported"
  else
    rings <- py_get geometry "coordinates" (PList [PList []]) ;;
    coordinates <- py_index0 rings ;;
    n <- py_len coordinates ;;
    if n <? 3 then
      Reject "Invalid polygon coordinates"
    else
      items <- py_iter coordinates ;;
      leaflet_coords <- comprehension leaflet_order items ;;
      properties <- first_properties geojson_data ;;
      Value (PDict [("coordinates", PList leaflet_coords);
                    ("properties", properties)]).

Definition verify_geojson (data : pyval) : response :=
  handle (verify_body data).

(** ** Numbers

    After [round], a coordinate is an [int] or a [float]. *)

Inductive pynum : Type :=
| NInt (z : Z)
| NFloat (f : float).

Definition num_val (n : pynum) : pyval :=
  match n with
  | NInt z => PInt z
  | NFloat f => PFloat f
  end.

(** [z == f] for an int and a float: Python compares the exact values. *)
Definition int_float_eqb (z : Z) (f : float) : bool :=
  match Prim2SF f with
  | S754_zero _ => z =? 0
  | S754_finite s m e =>
      let v := if s then Z.neg m else Z.pos m in
      if 0 <=? e then z =? v * 2 ^ e else z * 2 ^ (- e) =? v
  | _ => false
  end.

(** [a == b] on numbers: NaN equals nothing, itself included. *)
Definition num_eqb (a b : pynum) : bool :=
  match a, b with
  | NInt x, NInt y => x =? y
  | NFloat x, NFloat y => PrimFloat.eqb x y
  | NInt x, NFloat y => int_float_eqb x y
  | NFloat x, NInt y => int_float_eqb y x
  end.

(** A vertex of [geojson_coords]: the list [[lon, lat]]. *)
Definition vertex : Type := (pynum * pynum)%type.

Definition vertex_val (v : vertex) : pyval :=
  PList [num_val (fst v); num_val (snd v)].

(** [a == b] on two such lists. *)
Definition vertex_eqb (a b : vertex) : bool :=
  num_eqb (fst a) (fst b) && num_eqb (snd a) (snd b).

(** [round(z, ndigits)] on an int: the int itself when [ndigits >= 0],
    else the nearest multiple of [10 ** -ndigits], ties to even. *)
Definition int_round (z ndigits : Z) : Z :=
  if 0 <=? ndigits then z
  else
    let p := 10 ^ (- ndigits) in
    let q := z / p in
    let r := z mod p in
    if (p <? 2 * r) || ((p =? 2 * r) && Z.odd q) then (q + 1) * p else q * p.

(** ** What the handlers call and the repository does not define

    The builtin [round] on a float, shapely's [Polygon] and [is_valid],
    and pyproj's [Geod(ellps='WGS84').polygon_area_perimeter].  A library
    call returns or raises. *)

Record libraries : Type := {
  float_round : float -> Z -> float;
  polygon : Type;
  Polygon : list vertex -> pyexc + polygon;
  is_valid : polygon -> bool;
  polygon_area_perimeter : list pynum -> list pynum -> pyexc + (float * float)
}.

Definition call {A} (r : pyexc + A) : outcome A :=
  match r with
  | inl e => Raise e
  | inr a => Value a
  end.

(** ** POST /calculate *)

Section Calculate.

Variable L : libraries.

(** [round(v, ndigits)] *)
Definition py_round (v : pyval) (ndigits : Z) : outcome pynum :=
  match v with
  | PInt z => Value (NInt (int_round z ndigits))
  | PBool b => Value (NInt (int_round (if b then 1 else 0) ndigits))
  | PFloat f => Value (NFloat (float_round L f ndigits))
  | _ => Raise TypeError
  end.

(** Lines 20-22. *)
Definition round_coordinates (coords : list (pyval * pyval)) (precision : Z)
  : outcome (list vertex) :=
  comprehension
    (fun c => x <- py_round (fst c) precision ;;
              y <- py_round (snd c) precision ;;
              Value (x, y))
    coords.

(** Line 44: [[lng, lat] for lat, lng in coordinates] *)
Definition geojson_order (item : pyval) : outcome (pyval * pyval) :=
  '(lat, lng) <- unpack2 item ;; Value (lng, lat).

(** Lines 50-51: [geojson_coords[0]] raises on an empty list; the
    appended vertex is the first one itself. *)
Definition close_ring (geojson_coords : list vertex) : outcome (list vertex) :=
  match geojson_coords with
  | [] => Raise IndexError
  | first :: _ =>
      if negb (vertex_eqb first (last geojson_coords first))
      then Value (geojson_coords ++ [first])
      else Value geojson_coords
  end.

(** Lines 72-87. *)
Definition feature_collection (geojson_coords : list vertex)
    (area_ha area_m2 : float) (now : string) (coordinate_count : Z) : pyval :=
  PDict [("type", PStr "FeatureCollection");
         ("features",
          PList [PDict [("type", PStr "Feature");
                        ("geometry",
                         PDict [("type", PStr "Polygon");
                                ("coordinates",
                                 PList [PList (map vertex_val geojson_coords)])]);
                        ("properties",
                         PDict [("area_ha", PFloat area_ha);
                                ("area_m2", PFloat area_m2);
                                ("timestamp", PStr (now ++ "Z")%string);
                                ("coordinate_count", PInt coordinate_count)])]])].

(** [now] is [datetime.utcnow().isoformat()] at the time of the call. *)
Definition calculate_body (now : string) (data : pyval) : outcome pyval :=
  coordinates <- py_get data "coordinates" (PList []) ;;
  n <- py_len coordinates ;;
  if n <? 3 then
    Reject "At least 3 coordinates required"
  else
    items <- py_iter coordinates ;;
    geojson_coords <- comprehension geojson_order items ;;
    geojson_coords <- round_coordinates geojson_coords 6 ;;
    geojson_coords <- close_ring geojson_coords ;;
    polygon <- call (Polygon L geojson_coords) ;;
    if negb (is_valid L polygon) then
      Reject "Invalid polygon geometry"
    else
      let lons := map fst geojson_coords in
      let lats := map snd geojson_coords in
      '(area_m2, _) <- call (polygon_area_perimeter L lons lats) ;;
      let area_m2 := PrimFloat.abs area_m2 in
      let area_ha := float_round L (area_m2 / 10000)%float 4 in
      Value (feature_collection geojson_coords area_ha
               (float_round L area_m2 2) now n).

Definition calculate_area (now : string) (data : pyval) : response :=
  handle (calculate_body now data).

End Calculate.

Arguments py_round L v ndigits : simpl never.

(** ** Reading an answer

    The members of a 200 body the claims speak of. *)

Definition member (key : string) (v : pyval) : option pyval :=
  match v with
  | PDict d => lookup key d
  | _ => None
  end.

Definition first_item (v : pyval) : option pyval :=
  match v with
  | PList (x :: _) => Some x
  | _ => None
  end.

Definition opt_bind {A B} (o : option A) (k : A -> option B) : option B :=
  match o with
  | Some a => k a
  | None => None
  end.

(** [body["features"][0]] *)
Definition response_feature (body : pyval) : option pyval :=
  opt_bind (member "features" body) first_item.

(** [body["features"][0]["geometry"]["coordinates"][0]] *)
Definition response_ring (body : pyval) : option pyval :=
  opt_bind (response_feature body) (fun f =>
  opt_bind (member "geometry" f) (fun g =>
  opt_bind (member "coordinates" g) first_item)).

(** [body["features"][0]["properties"][key]] *)
Definition response_property (key : string) (body : pyval) : option pyval :=
  opt_bind (response_feature body) (fun f =>
  opt_bind (member "properties" f) (member key)).

(** ** The stages of [calculate_area] *)

Section Stages.

Variable L : libraries.

(** Lines 38-47: the rounded [geojson_coords], before closing. *)
Definition rounded_coords (data : pyval) : outcome (list vertex) :=
  coordinates <- py_get data "coordinates" (PList []) ;;
  n <- py_len coordinates ;;
  if n <? 3 then
    Reject "At least 3 coordinates required"
  else
    items <- py_iter coordinates ;;
    geojson_coords <- comprehension geojson_order items ;;
    round_coordinates L geojson_coords 6.

(** Lines 53-89, on the closed ring. *)
Definition area_response (now : string) (n : Z) (ring : list vertex)
  : outcome pyval :=
  polygon <- call (Polygon L ring) ;;
  if negb (is_valid L polygon) then
    Reject "Invalid polygon geometry"
  else
    '(area_m2, _) <- call (polygon_area_perimeter L (map fst ring)
                             (map snd ring)) ;;
    Value (feature_collection ring
             (float_round L (PrimFloat.abs area_m2 / 10000)%float 4)
             (float_round L (PrimFloat.abs area_m2) 2) now n).

(** An input item [[lat, lng]] and its vertex [[round(lng, 6),
    round(lat, 6)]]. *)
Definition rounds_to (item : pyval) (v : vertex) : Prop :=
  exists lat lng,
    unpack2 item = Value (lat, lng) /\
    py_round L lng 6 = Value (fst v) /\
    py_round L lat 6 = Value (snd v).

End Stages.

(** ** Requests *)

Definition calculate_request (coordinates : list pyval) : pyval :=
  PDict [("coordinates", PList coordinates)].

Definition verify_request (geojson : pyval) : pyval :=
  PDict [("geojson", geojson)].

Definition polygon_geometry (ring : list pyval) : pyval :=
  PDict [("type", PStr "Polygon"); ("coordinates", PList [PList ring])].

Definition feature_collection_of (features : list pyval) : pyval :=
  PDict [("type", PStr "FeatureCollection"); ("features", PList features)].

(** ** What the claims say of an answer *)

(** A vertex of the ring as the extractor returns it: [[lat, lon]]. *)
Definition leaflet_val (v : vertex) : pyval :=
  PList [num_val (snd v); num_val (fst v)].

(** An item [[lng, lat]] of the ring and its pair [[lat, lng]] in the
    answer. *)
Definition swapped (item out : pyval) : Prop :=
  exists lng lat, unpack2 item = Value (lng, lat) /\ out = PList [lat; lng].

Definition or_default (o : option pyval) (default : pyval) : pyval :=
  match o with
  | Some x => x
  | None => default
  end.

(** What the extractor answers a request it accepts: the first ring of
    the Polygon it resolved, each pair swapped; with it the properties of
    the first feature when the request holds a FeatureCollection, and the
    empty object when it holds a bare geometry. *)
Definition extraction (data body : pyval) : Prop :=
  exists geojson_data geometry ring more items leaflet properties,
    py_get data "geojson" (PDict []) = Value geojson_data /\
    ((member "type" geojson_data = Some (PStr "FeatureCollection") /\
      exists f rest,
        member "features" geojson_data = Some (PList (f :: rest)) /\
        member "geometry" f = Some geometry /\
        properties = or_default (member "properties" f) (PDict [])) \/
     (member "type" geojson_data = Some (PStr "Feature") /\
      member "geometry" geojson_data = Some geometry) \/
     (geometry = geojson_data /\ properties = PDict [])) /\
    member "type" geometry = Some (PStr "Polygon") /\
    member "coordinates" geometry = Some (PList (ring :: more)) /\
    py_iter ring = Value items /\
    (3 <= List.length items)%nat /\
    Forall2 swapped items leaflet /\
    body = PDict [("coordinates", PList leaflet); ("properties", properties)].

(** [l] holds [k] vertices that differ from one another. *)
Definition has_distinct (k : nat) (l : list pyval) : Prop :=
  exists vs, NoDup vs /\ incl vs l /\ List.length vs = k.


(** The extractor returns the input items of [data], each rounded, in
    their order, then the first of them again when the ring was closed
    by appending; from the answer [body] and from its feature alike. *)
Definition round_trip (L : libraries) (data body : pyval) : Prop :=
  exists coordinates items rounded closing feature,
    py_get data "coordinates" (PList []) = Value coordinates /\
    py_iter coordinates = Value items /\
    Forall2 (rounds_to L) items rounded /\
    (closing = [] \/ closing = firstn 1 rounded) /\
    response_feature body = Some feature /\
    verify_geojson (verify_request body)
      = Ok200 (PDict [("coordinates",
                       PList (map leaflet_val (rounded ++ closing)));
                      ("properties",
                       or_default (member "properties" feature) (PDict []))]) /\
    verify_geojson (verify_request feature)
      = Ok200 (PDict [("coordinates",
                       PList (map leaflet_val (rounded ++ closing)));
                      ("properties", PDict [])]).

(** The two area figures of [body], from the signed area the geodesic
    routine returns for the closed ring. *)
Definition area_figures (L : libraries) (data body : pyval) : Prop :=
  exists rounded ring area perimeter,
    rounded_coords L data = Value rounded /\
    close_ring rounded = Value ring /\
    polygon_area_perimeter L (map fst ring) (map snd ring)
      = inr (area, perimeter) /\
    response_property "area_m2" body
      = Some (PFloat (float_round L (PrimFloat.abs area) 2)) /\
    response_property "area_ha" body
      = Some (PFloat (float_round L (PrimFloat.abs area / 10000)%float 4)).

(** The absolute value of the area the geodesic routine returns for a
    list of vertices, when it returns. *)
Definition unsigned_area (L : libraries) (ring : list vertex) : option float :=
  match polygon_area_perimeter L (map fst ring) (map snd ring) with
  | inr (area, _) => Some (PrimFloat.abs area)
  | inl _ => None
  end.

(** ** A model of the libraries on the integer lattice

    For running the handlers on concrete requests: the decimal rounding
    of a float, and in place of shapely and pyproj the planar polygon
    through the integer parts of the coordinates, valid when its signed
    area is not zero. *)

Definition half_even (num den : Z) : Z :=
  let q := num / den in
  let r := num mod den in
  if (den <? 2 * r) || ((den =? 2 * r) && Z.odd q) then q + 1 else q.

(** The float nearest to the decimal with [ndigits] places nearest to
    [f], ties to even both times. *)
Definition decimal_round (f : float) (ndigits : Z) : float :=
  match Prim2SF f with
  | S754_finite s m e =>
      let p := 10 ^ ndigits in
      let k := if 0 <=? e then Z.pos m * 2 ^ e * p
               else half_even (Z.pos m * p) (2 ^ (- e)) in
      match k with
      | Z.pos k' => SF2Prim (SFdiv prec emax (S754_finite s k' 0)
                               (S754_finite false (Z.to_pos p) 0))
      | _ => SF2Prim (S754_zero s)
      end
  | _ => f
  end.

Definition float_trunc (f : float) : Z :=
  match Prim2SF f with
  | S754_finite s m e =>
      let v := if 0 <=? e then Z.pos m * 2 ^ e else Z.pos m / 2 ^ (- e) in
      if s then - v else v
  | _ => 0
  end.

Definition lattice_coord (n : pynum) : Z :=
  match n with
  | NInt z => z
  | NFloat f => float_trunc f
  end.

Definition lattice_point (v : vertex) : Z * Z :=
  (lattice_coord (fst v), lattice_coord (snd v)).

Definition cross (p q : Z * Z) : Z := fst p * snd q - fst q * snd p.

(** The shoelace sum along an open chain of points. *)
Fixpoint chain (l : list (Z * Z)) : Z :=
  match l with
  | p :: (q :: _) as t => cross p q + chain t
  | _ => 0
  end.

(** Twice the signed area of the polygon closed from the last point to
    the first. *)
Definition twice_area (l : list (Z * Z)) : Z :=
  match l with
  | [] => 0
  | p :: _ => chain (l ++ [p])
  end.

Definition magnitude (z : Z) : float :=
  (SF2Prim (binary_normalize prec emax (Z.abs z) 0 false) / 2)%float.

Definition signed_half (z : Z) : float :=
  if z <? 0 then (- magnitude z)%float else magnitude z.

Definition lattice_libs : libraries := {|
  float_round := decimal_round;
  polygon := list vertex;
  Polygon := fun ring => inr ring;
  is_valid := fun ring => negb (twice_area (map lattice_point ring) =? 0);
  polygon_area_perimeter := fun lons lats =>
    inr (signed_half (twice_area (map lattice_point (combine lons lats))),
         0%float)
|}.


(** ** Requests used as examples *)

Definition point (a b : Z) : pyval := PList [PInt a; PInt b].

(** The spec's scenario [[[0,0],[0,1],[1,1],[1,0]]], its bowtie
    [[[0,0],[1,1],[0,1],[1,0]]], and one vertex three times. *)
Definition unit_square : list pyval :=
  [point 0 0; point 0 1; point 1 1; point 1 0].

Definition bowtie : list pyval :=
  [point 0 0; point 1 1; point 0 1; point 1 0].

Definition same_point_thrice : list pyval :=
  [point 0 0; point 0 0; point 0 0].

Definition point_feature : pyval :=
  PDict [("type", PStr "Feature");
         ("geometry", PDict [("type", PStr "Point");
                             ("coordinates", point 0 0)])].

Definition field_feature : pyval :=
  PDict [("type", PStr "Feature");
         ("geometry", polygon_geometry (unit_square ++ [point 0 0]));
         ("properties", PDict [("name", PStr "north field")])].

Definition leaflet_square : pyval :=
  PList [point 0 0; point 1 0; point 1 1; point 0 1; point 0 0].

Definition two_points : list pyval := [point 0 0; point 0 1].

Definition unit_square_ring : list vertex :=
  [(NInt 0, NInt 0); (NInt 1, NInt 0); (NInt 1, NInt 1); (NInt 0, NInt 1);
   (NInt 0, NInt 0)].

Definition unit_square_answer (now : string) : pyval :=
  feature_collection unit_square_ring (decimal_round (1 / 10000) 4) 1%float
    now 4.

Definition reversed_square_answer (now : string) : pyval :=
  feature_collection
    [(NInt 0, NInt 1); (NInt 1, NInt 1); (NInt 1, NInt 0); (NInt 0, NInt 0);
     (NInt 0, NInt 1)]
    (decimal_round (1 / 10000) 4) 1%float now 4.



(** ** Well-formed input *)

(** [v] is an int, a bool or a float: what [round] accepts. *)
Definition is_number (v : pyval) : bool :=
  match v with
  | PInt _ | PBool _ | PFloat _ => true
  | _ => false
  end.

Definition is_list (v : pyval) : bool :=
  match v with
  | PList _ => true
  | _ => false
  end.

(** [v] is a list of two items. *)
Definition is_pair (v : pyval) : bool :=
  match v with
  | PList [_; _] => true
  | _ => false
  end.

(** The list [[a, b]]. *)
Definition pair_val (c : pyval * pyval) : pyval := PList [fst c; snd c].

Definition swap_pair (c : pyval * pyval) : pyval * pyval := (snd c, fst c).

(** An entry [[lat, lng]] of two numbers. *)
Definition number_pair (item : pyval) : Prop :=
  exists lat lng,
    item = PList [lat; lng] /\ is_number lat = true /\ is_number lng = true.

(** [[lng, lat]] as a pair, for an entry [[lat, lng]]. *)
Definition entry_pair (item : pyval) : pyval * pyval :=
  match item with
  | PList [lat; lng] => (lng, lat)
  | _ => (PNone, PNone)
  end.

(** Rounding to 6 places leaves the two values of [v] as they are. *)
Definition stable (L : libraries) (v : vertex) : Prop :=
  py_round L (num_val (fst v)) 6 = Value (fst v) /\
  py_round L (num_val (snd v)) 6 = Value (snd v).

(** ** More requests used as examples *)

(** A position with an altitude among the entries, and a latitude given
    as text. *)
Definition with_altitude : list pyval :=
  [point 0 0; PList [PInt 0; PInt 1; PInt 120]; point 1 1].

Definition with_text : list pyval :=
  [PList [PStr "0.5"; PInt 0]; point 0 1; point 1 1].

(** Three pairs that are not numbers and do not close. *)
Definition open_text_ring : list (pyval * pyval) :=
  [(PStr "a", PNone); (PInt 1, PBool true); (PList [], PInt 2)].

(** A Polygon with a bounding box and a second ring. *)
Definition polygon_with_hole : list (string * pyval) :=
  [("bbox", PList [PInt 0; PInt 0; PInt 1; PInt 1]);
   ("type", PStr "Polygon");
   ("coordinates",
    PList [PList (unit_square ++ [point 0 0]); PList same_point_thrice])].

(** * Proofs *)

(** ** The monad's inversions *)

Lemma bind_value {A B} (m : outcome A) (k : A -> outcome B) (b : B) :
  bind m k = Value b -> exists a, m = Value a /\ k a = Value b.
Proof. destruct m; simpl; intros H; try discriminate. eauto. Qed.

Lemma handle_ok (m : outcome pyval) (body : pyval) :
  handle m = Ok200 body <-> m = Value body.
Proof.
  split.
  - destruct m; simpl; intros H; try discriminate. now inversion H.
  - now intros ->.
Qed.

Lemma handle_bad (m : outcome pyval) (msg : string) :
  handle m = Bad400 msg <-> m = Reject msg.
Proof.
  split.
  - destruct m; simpl; intros H; try discriminate. now inversion H.
  - now intros ->.
Qed.

(** Splits the hypothesis [H : x <- m ;; k = Value b]. *)
Ltac bind_inv H :=
  let a := fresh "a" in
  let Ha := fresh "E" in
  apply bind_value in H; destruct H as [a [Ha H]].

Tactic Notation "bind_split" hyp(H) "as" ident(a) ident(Ha) :=
  apply bind_value in H; destruct H as [a [Ha H]].

Lemma comprehension_length {A B} (f : A -> outcome B) (l : list A) (r : list B) :
  comprehension f l = Value r -> List.length r = List.length l.
Proof.
  revert r; induction l as [|x xs IH]; simpl; intros r H.
  - now inversion H.
  - bind_inv H. bind_inv H. inversion H; subst; simpl.
    now rewrite (IH _ E0).
Qed.

Lemma comprehension_Forall2 {A B} (f : A -> outcome B) (l : list A) (r : list B) :
  comprehension f l = Value r <-> Forall2 (fun x y => f x = Value y) l r.
Proof.
  split.
  - revert r; induction l as [|x xs IH]; simpl; intros r H.
    + inversion H; constructor.
    + bind_inv H. bind_inv H. inversion H; subst. constructor; auto.
  - induction 1 as [|x y xs ys Hxy _ IH]; simpl; trivial.
    now rewrite Hxy, IH.
Qed.

Lemma chars_length (s : string) :
  List.length (chars s) = String.length s.
Proof.
  unfold chars. rewrite length_map.
  induction s; simpl; congruence.
Qed.

(** [len(v)] is the number of items [iter(v)] yields. *)
Lemma py_iter_length (v : pyval) (n : Z) (items : list pyval) :
  py_len v = Value n -> py_iter v = Value items ->
  n = Z.of_nat (List.length items).
Proof.
  destruct v; simpl; intros Hn Hi; try discriminate;
    inversion Hn; inversion Hi; subst; trivial.
  - now rewrite chars_length.
  - now rewrite length_map.
Qed.

(** ** [calculate_area] by stages *)

Section StageLemmas.

Variable L : libraries.

Lemma round_coordinates_length coords precision rounded :
  round_coordinates L coords precision = Value rounded ->
  List.length rounded = List.length coords.
Proof. apply comprehension_length. Qed.

Lemma calculate_body_stages (now : string) (data : pyval) :
  calculate_body L now data =
  (rounded <- rounded_coords L data ;;
   ring <- close_ring rounded ;;
   area_response L now (Z.of_nat (List.length rounded)) ring).
Proof.
  unfold calculate_body, rounded_coords.
  destruct (py_get data "coordinates" (PList [])) as [c| |]; simpl; trivial.
  destruct (py_len c) as [n| |] eqn:Hn; simpl; trivial.
  destruct (n <? 3); simpl; trivial.
  destruct (py_iter c) as [items| |] eqn:Hi; simpl; trivial.
  destruct (comprehension geojson_order items) as [sw| |] eqn:Hs; simpl; trivial.
  destruct (round_coordinates L sw 6) as [rounded| |] eqn:Hr; simpl; trivial.
  rewrite (round_coordinates_length _ _ _ Hr), (comprehension_length _ _ _ Hs).
  now rewrite <- (py_iter_length _ _ _ Hn Hi).
Qed.

(** The requests the calculator accepts, and what it answers them. *)
Lemma calculate_ok (now : string) (data body : pyval) :
  calculate_area L now data = Ok200 body <->
  exists rounded ring p area perimeter,
    rounded_coords L data = Value rounded /\
    close_ring rounded = Value ring /\
    Polygon L ring = inr p /\
    is_valid L p = true /\
    polygon_area_perimeter L (map fst ring) (map snd ring)
      = inr (area, perimeter) /\
    body = feature_collection ring
             (float_round L (PrimFloat.abs area / 10000)%float 4)
             (float_round L (PrimFloat.abs area) 2)
             now (Z.of_nat (List.length rounded)).
Proof.
  unfold calculate_area. rewrite handle_ok, calculate_body_stages. split.
  - intros H. bind_inv H. bind_inv H. unfold area_response in H.
    bind_inv H. destruct (is_valid L a1) eqn:Hv; simpl in H; try discriminate.
    bind_inv H. destruct a2 as [area per]. inversion H; subst.
    exists a, a0, a1, area, per. repeat split; trivial.
    + now destruct (Polygon L a0); inversion E1.
    + now destruct (polygon_area_perimeter L _ _); inversion E2.
  - intros (rounded & ring & p & area & per & H1 & H2 & H3 & H4 & H5 & ->).
    rewrite H1; simpl. rewrite H2; simpl. unfold area_response.
    rewrite H3; simpl. rewrite H4; simpl. now rewrite H5.
Qed.

(** The rounded coordinates are the input items, each swapped and
    rounded, in order. *)
Lemma rounded_coords_items (data : pyval) (rounded : list vertex) :
  rounded_coords L data = Value rounded ->
  exists coordinates items,
    py_get data "coordinates" (PList []) = Value coordinates /\
    py_iter coordinates = Value items /\
    Forall2 (rounds_to L) items rounded /\
    (3 <= List.length rounded)%nat.
Proof.
  unfold rounded_coords. intros H.
  bind_inv H. bind_inv H. destruct (a0 <? 3) eqn:Hlt; try discriminate.
  bind_inv H. bind_inv H.
  exists a, a1. repeat split; trivial.
  - apply comprehension_Forall2 in E2, H.
    clear - E2 H. revert rounded H.
    induction E2 as [|x y xs ys Hxy _ IH]; intros rounded H; inversion H; subst.
    + constructor.
    + constructor; auto.
      unfold geojson_order in Hxy. bind_inv Hxy. destruct a as [lat lng].
      inversion Hxy; subst. simpl in *.
      match goal with
      | H : bind _ _ = Value _ |- _ =>
          bind_inv H; bind_inv H; inversion H; subst
      end.
      exists lat, lng. auto.
  - apply round_coordinates_length in H. apply comprehension_length in E2.
    pose proof (py_iter_length _ _ _ E0 E1). apply Z.ltb_ge in Hlt. lia.
Qed.

End StageLemmas.

(** ** The examples, run *)

Example verify_square :
  verify_geojson
    (PDict [("geojson",
       PDict [("type", PStr "Polygon");
              ("coordinates",
               PList [PList [PList [PInt 0; PInt 0]; PList [PInt 1; PInt 0];
                             PList [PInt 1; PInt 1]; PList [PInt 0; PInt 0]]])])])
  = Ok200 (PDict [("coordinates",
                   PList [PList [PInt 0; PInt 0]; PList [PInt 0; PInt 1];
                          PList [PInt 1; PInt 1]; PList [PInt 0; PInt 0]]);
                  ("properties", PDict [])]).
Proof. reflexivity. Qed.

Example calculate_unit_square :
  calculate_area lattice_libs "2024-05-01T10:00:00" (calculate_request unit_square)
  = Ok200 (feature_collection
             [(NInt 0, NInt 0); (NInt 1, NInt 0); (NInt 1, NInt 1);
              (NInt 0, NInt 1); (NInt 0, NInt 0)]
             (decimal_round (1 / 10000) 4) 1%float "2024-05-01T10:00:00" 4).
Proof. vm_compute. reflexivity. Qed.

Example calculate_bowtie :
  calculate_area lattice_libs "2024-05-01T10:00:00" (calculate_request bowtie)
  = Bad400 "Invalid polygon geometry".
Proof. vm_compute. reflexivity. Qed.

(** A last vertex [[0.0, -0.0]] compares equal to the first [[0, 0]]:
    nothing is appended. *)
Example calculate_closed_input :
  calculate_area lattice_libs "2024-05-01T10:00:00"
    (calculate_request [point 0 0; point 0 1; point 1 1;
                        PList [PFloat 0; PFloat (-0)]])
  = Ok200 (feature_collection
             [(NInt 0, NInt 0); (NInt 1, NInt 0); (NInt 1, NInt 1);
              (NFloat (-0), NFloat 0)]
             (decimal_round (0.5 / 10000) 4) 0.5%float
             "2024-05-01T10:00:00" 4).
Proof. vm_compute. reflexivity. Qed.

(** [true] is the int 1 to [round]; a string is unpacked into its two
    characters, which [round] refuses. *)
Example calculate_bool_coordinate :
  calculate_area lattice_libs "2024-05-01T10:00:00"
    (calculate_request [PList [PBool true; PInt 0]; point 0 0; point 0 1])
  = Ok200 (feature_collection
             [(NInt 0, NInt 1); (NInt 0, NInt 0); (NInt 1, NInt 0);
              (NInt 0, NInt 1)]
             (decimal_round (0.5 / 10000) 4) 0.5%float
             "2024-05-01T10:00:00" 3).
Proof. vm_compute. reflexivity. Qed.

Example calculate_string_item :
  calculate_area lattice_libs "2024-05-01T10:00:00"
    (calculate_request [point 0 0; point 0 1; PStr "ab"])
  = Err500 TypeError.
Proof. vm_compute. reflexivity. Qed.

Example calculate_no_body :
  calculate_area lattice_libs "2024-05-01T10:00:00" PNone
  = Err500 AttributeError.
Proof. reflexivity. Qed.

Example verify_no_features :
  verify_geojson (verify_request (feature_collection_of []))
  = Bad400 "No features found in GeoJSON".
Proof. reflexivity. Qed.

(** [None.get] raises: a first feature whose geometry is [null] is
    answered 500. *)
Example verify_null_geometry :
  verify_geojson
    (verify_request
       (feature_collection_of
          [PDict [("type", PStr "Feature"); ("geometry", PNone)]]))
  = Err500 AttributeError.
Proof. reflexivity. Qed.

(** ** The extractor *)

Lemma py_is_str_true (v : pyval) (s : string) :
  py_is_str v s = true <-> v = PStr s.
Proof.
  destruct v; simpl; try (split; [discriminate | intros H; inversion H]).
  rewrite String.eqb_eq. split; [now intros -> | now inversion 1].
Qed.

Lemma py_is_str_false (v : pyval) (s : string) :
  v <> PStr s -> py_is_str v s = false.
Proof.
  intros Hne. destruct (py_is_str v s) eqn:E; trivial.
  now apply py_is_str_true in E.
Qed.

(** C10. On a FeatureCollection the extractor reads the first feature
    only: its answer is the one it gives the collection of that feature
    alone, and when the geometry of the first feature is not of type
    Polygon the answer is the unsupported-geometry error, whatever the
    later features are. *)
Theorem first_feature_only (d : list (string * pyval)) (f : pyval)
    (rest : list pyval) :
  lookup "type" d = Some (PStr "FeatureCollection") ->
  lookup "features" d = Some (PList (f :: rest)) ->
  verify_geojson (verify_request (PDict d))
    = verify_geojson (verify_request (feature_collection_of [f])) /\
  forall g,
    py_get f "geometry" (PDict []) = Value (PDict g) ->
    lookup "type" g <> Some (PStr "Polygon") ->
    verify_geojson (verify_request (PDict d))
      = Bad400 "Only Polygon geometry supported".
Proof.
  intros Ht Hf.
  assert (Hgeo : first_geometry (PDict d) = py_get f "geometry" (PDict [])).
  { unfold first_geometry. simpl. rewrite Ht. simpl. rewrite Hf. reflexivity. }
  assert (Hprop : first_properties (PDict d) = py_get f "properties" (PDict [])).
  { unfold first_properties. simpl. rewrite Ht. simpl. rewrite Hf. reflexivity. }
  split.
  - unfold verify_geojson, verify_body, verify_request. simpl py_get at 1 3.
    simpl bind. rewrite Hgeo, Hprop. reflexivity.
  - intros g Hg Hne.
    unfold verify_geojson, verify_body, verify_request. simpl py_get at 1.
    simpl bind. rewrite Hgeo, Hg. simpl bind.
    simpl. destruct (lookup "type" g) as [t|] eqn:Et; simpl; trivial.
    rewrite py_is_str_false; trivial. congruence.
Qed.

Lemma first_feature_only_witness :
  verify_geojson (verify_request (feature_collection_of [point_feature; field_feature]))
    = verify_geojson (verify_request (feature_collection_of [point_feature])) /\
  verify_geojson (verify_request (feature_collection_of [point_feature; field_feature]))
    = Bad400 "Only Polygon geometry supported".
Proof.
  destruct (first_feature_only
              [("type", PStr "FeatureCollection");
               ("features", PList [point_feature; field_feature])]
              point_feature [field_feature] eq_refl eq_refl) as [H1 H2].
  split; [exact H1|].
  apply (H2 [("type", PStr "Point"); ("coordinates", point 0 0)]);
    [reflexivity | discriminate].
Defined.

Lemma py_get_value (v : pyval) (key : string) (default x : pyval) :
  py_get v key default = Value x ->
  exists d, v = PDict d /\ x = or_default (lookup key d) default.
Proof.
  destruct v; simpl; try discriminate. intros H. exists d. split; trivial.
  destruct (lookup key d); now inversion H.
Qed.

Lemma py_index0_value (v x : pyval) :
  py_index0 v = Value x ->
  (exists rest, v = PList (x :: rest)) \/
  (exists c s, v = PStr (String c s) /\ x = PStr (String c EmptyString)).
Proof.
  destruct v as [| | | |s|l|]; simpl; try discriminate.
  - destruct s; intros H; inversion H. right. eauto.
  - destruct l; intros H; inversion H. left. eauto.
Qed.

Lemma leaflet_order_swapped (items leaflet : list pyval) :
  comprehension leaflet_order items = Value leaflet ->
  Forall2 swapped items leaflet.
Proof.
  rewrite comprehension_Forall2. apply Forall2_impl.
  intros item out H. unfold leaflet_order in H. bind_inv H.
  destruct a as [lng lat]. inversion H. exists lng, lat. auto.
Qed.

(** C9, amended. For every request the extractor accepts, the answer
    holds the outer ring of the resolved Polygon (of the first feature of
    a FeatureCollection, of a Feature, or the bare geometry) with each
    pair in latitude-first order.  Its properties are those of the first
    feature of a FeatureCollection (the empty object when it has none),
    and the empty object for a bare geometry. *)
Theorem extractor_answer (data body : pyval) :
  verify_geojson data = Ok200 body -> extraction data body.
Proof.
  unfold verify_geojson, extraction. rewrite handle_ok. unfold verify_body.
  intros H. bind_split H as gd Hgd. bind_split H as geometry Hgeom.
  bind_split H as gt Hgt.
  destruct (py_is_str gt "Polygon") eqn:Hpoly; simpl in H; try discriminate.
  apply py_is_str_true in Hpoly; subst gt.
  bind_split H as rings Hrings. bind_split H as ring Hring. bind_split H as n Hn.
  destruct (n <? 3) eqn:Hlen; try discriminate. apply Z.ltb_ge in Hlen.
  bind_split H as items Hitems. bind_split H as leaflet Hleaf.
  bind_split H as properties Hprops. inversion H; subst body; clear H.
  apply py_get_value in Hgt. destruct Hgt as (g & -> & Hty).
  assert (Htype : lookup "type" g = Some (PStr "Polygon")).
  { destruct (lookup "type" g); simpl in Hty; congruence. }
  clear Hty.
  assert (Hmore : exists more, lookup "coordinates" g = Some (PList (ring :: more))).
  { simpl in Hrings.
    destruct (lookup "coordinates" g) as [r|]; inversion Hrings; subst rings;
      clear Hrings.
    - apply py_index0_value in Hring.
      destruct Hring as [[more ->]|(c & s & -> & ->)]; eauto.
      simpl in Hn. inversion Hn. subst n. simpl in Hlen. lia.
    - simpl in Hring. inversion Hring; subst ring. simpl in Hn. inversion Hn.
      subst n. simpl in Hlen. lia. }
  destruct Hmore as [more Hmore].
  exists gd, (PDict g), ring, more, items, leaflet, properties.
  split; [exact Hgd|]. split.
  - unfold first_geometry in Hgeom. unfold first_properties in Hprops.
    bind_split Hgeom as t Ht. bind_split Hprops as t' Ht'.
    rewrite Ht in Ht'. inversion Ht'; subst t'; clear Ht'.
    apply py_get_value in Ht. destruct Ht as (d & -> & ->).
    destruct (py_is_str _ "FeatureCollection") eqn:Hfc.
    + left. apply py_is_str_true in Hfc.
      assert (Hd : lookup "type" d = Some (PStr "FeatureCollection")).
      { destruct (lookup "type" d); simpl in Hfc; congruence. }
      split; [exact Hd|].
      bind_split Hgeom as features Hfeat.
      destruct (py_truthy features) eqn:Htr; simpl in Hgeom; try discriminate.
      bind_split Hgeom as f Hf.
      apply py_get_value in Hgeom. destruct Hgeom as (fd & -> & Hgeo).
      apply py_index0_value in Hf. destruct Hf as [[rest ->]|(c & s & _ & Hf)];
        try discriminate.
      simpl in Hfeat. destruct (lookup "features" d) as [fs|] eqn:Hfs;
        inversion Hfeat; subst; try discriminate.
      exists (PDict fd), rest. simpl. rewrite Hfs. split; trivial.
      simpl in Hprops. rewrite Hfs in Hprops. simpl in Hprops.
      destruct (lookup "geometry" fd) as [g'|] eqn:Hg'; simpl in Hgeo.
      * subst g'. split; trivial.
        destruct (lookup "properties" fd); now inversion Hprops.
      * inversion Hgeo; subst g. discriminate.
    + right. bind_split Hgeom as t2 Ht2. inversion Hprops; subst properties.
      simpl in Ht2. assert (t2 = or_default (lookup "type" d) PNone)
        by (destruct (lookup "type" d); now inversion Ht2).
      subst t2. destruct (py_is_str _ "Feature") eqn:Hf.
      * left. apply py_is_str_true in Hf. simpl.
        destruct (lookup "type" d) as [p|]; simpl in Hf; try discriminate.
        subst p. split; trivial. simpl in Hgeom.
        destruct (lookup "geometry" d) as [g'|]; inversion Hgeom; subst.
        -- auto.
        -- discriminate.
      * right. inversion Hgeom. auto.
  - repeat split; trivial.
    + pose proof (py_iter_length _ _ _ Hn Hitems). lia.
    + now apply leaflet_order_swapped.
Qed.

Lemma extractor_answer_witness :
  verify_geojson (verify_request (feature_collection_of [field_feature]))
    = Ok200 (PDict [("coordinates", leaflet_square);
                    ("properties", PDict [("name", PStr "north field")])]) /\
  extraction (verify_request (feature_collection_of [field_feature]))
    (PDict [("coordinates", leaflet_square);
            ("properties", PDict [("name", PStr "north field")])]).
Proof.
  split; [reflexivity|].
  apply (extractor_answer (verify_request (feature_collection_of [field_feature]))).
  reflexivity.
Defined.

(** C9 as stated fails on a Feature: its properties are not returned. *)
Lemma feature_properties_dropped :
  member "properties" field_feature
    = Some (PDict [("name", PStr "north field")]) /\
  verify_geojson (verify_request field_feature)
    = Ok200 (PDict [("coordinates", leaflet_square); ("properties", PDict [])]).
Proof. split; reflexivity. Qed.

(** ** The vertex-count checks *)

Lemma bind_reject {A B} (m : outcome A) (k : A -> outcome B) (msg : string) :
  bind m k = Reject msg ->
  m = Reject msg \/ exists a, m = Value a /\ k a = Reject msg.
Proof.
  destruct m as [a|msg'|e]; simpl; intros H; try discriminate.
  - right. exists a. split; [reflexivity | exact H].
  - left. now inversion H.
Qed.

Lemma comprehension_no_reject {A B} (f : A -> outcome B) (l : list A) (msg : string) :
  (forall x, f x <> Reject msg) -> comprehension f l <> Reject msg.
Proof.
  intros Hf. induction l as [|x xs IH]; simpl; try discriminate.
  intros H. apply bind_reject in H. destruct H as [H|(y & _ & H)].
  - now apply (Hf x).
  - apply bind_reject in H. destruct H as [H|(ys & _ & H)]; [auto|discriminate].
Qed.

Lemma py_get_no_reject v key default msg : py_get v key default <> Reject msg.
Proof. destruct v; simpl; try discriminate. now destruct (lookup key d). Qed.

Lemma py_iter_no_reject v msg : py_iter v <> Reject msg.
Proof. destruct v; discriminate. Qed.

Lemma py_index0_no_reject v msg : py_index0 v <> Reject msg.
Proof. destruct v as [| | | |[|]|[|]|]; discriminate. Qed.

Lemma unpack2_no_reject v msg : unpack2 v <> Reject msg.
Proof.
  unfold unpack2. intros H. apply bind_reject in H.
  destruct H as [H|(l & _ & H)]; [now apply py_iter_no_reject in H|].
  destruct l as [|a [|b [|c l]]]; discriminate.
Qed.

Lemma leaflet_order_no_reject v msg : leaflet_order v <> Reject msg.
Proof.
  unfold leaflet_order. intros H. apply bind_reject in H.
  destruct H as [H|([a b] & _ & H)]; [now apply unpack2_no_reject in H|].
  discriminate.
Qed.

Lemma geojson_order_no_reject v msg : geojson_order v <> Reject msg.
Proof.
  unfold geojson_order. intros H. apply bind_reject in H.
  destruct H as [H|([a b] & _ & H)]; [now apply unpack2_no_reject in H|].
  discriminate.
Qed.

Lemma first_properties_no_reject v msg : first_properties v <> Reject msg.
Proof.
  unfold first_properties. intros H. apply bind_reject in H.
  destruct H as [H|(t & _ & H)]; [now apply py_get_no_reject in H|].
  destruct (py_is_str t "FeatureCollection"); try discriminate.
  apply bind_reject in H.
  destruct H as [H|(fs & _ & H)]; [now apply py_get_no_reject in H|].
  apply bind_reject in H.
  destruct H as [H|(f & _ & H)]; [now apply py_index0_no_reject in H|].
  now apply py_get_no_reject in H.
Qed.

Lemma py_round_no_reject L v n msg : py_round L v n <> Reject msg.
Proof. destruct v; discriminate. Qed.

Lemma round_coordinates_no_reject L coords n msg :
  round_coordinates L coords n <> Reject msg.
Proof.
  apply comprehension_no_reject. intros c H. apply bind_reject in H.
  destruct H as [H|(x & _ & H)]; [now apply py_round_no_reject in H|].
  apply bind_reject in H.
  destruct H as [H|(y & _ & H)]; [now apply py_round_no_reject in H|].
  discriminate.
Qed.

Lemma close_ring_no_reject ring msg : close_ring ring <> Reject msg.
Proof.
  destruct ring as [|v t]; simpl; try discriminate.
  now destruct (vertex_eqb _ _).
Qed.

(** After the count check the calculator rejects invalid geometry only. *)
Lemma area_response_reject L now n ring msg :
  area_response L now n ring = Reject msg -> msg = "Invalid polygon geometry".
Proof.
  unfold area_response. intros H. apply bind_reject in H.
  destruct H as [H|(p & _ & H)].
  - destruct (Polygon L ring); discriminate.
  - destruct (is_valid L p); simpl in H.
    + apply bind_reject in H. destruct H as [H|([a b] & _ & H)].
      * destruct (polygon_area_perimeter L _ _); discriminate.
      * discriminate.
    + now inversion H.
Qed.

Lemma calculator_count_check (L : libraries) (now : string)
    (data : pyval) (coordinates : list pyval) :
  py_get data "coordinates" (PList []) = Value (PList coordinates) ->
  calculate_area L now data = Bad400 "At least 3 coordinates required"
    <-> (List.length coordinates < 3)%nat.
Proof.
  intros Hc. unfold calculate_area. rewrite handle_bad. unfold calculate_body.
  rewrite Hc. simpl bind.
  destruct (Z.of_nat (List.length coordinates) <? 3) eqn:Hlt.
  - apply Z.ltb_lt in Hlt. split; [lia | trivial].
  - apply Z.ltb_ge in Hlt. split; [|lia]. intros H. exfalso.
    apply bind_reject in H.
    destruct H as [H|(sw & _ & H)];
      [now apply comprehension_no_reject in H;
         [|intros; apply geojson_order_no_reject]|].
    apply bind_reject in H.
    destruct H as [H|(rounded & _ & H)];
      [now apply round_coordinates_no_reject in H|].
    apply bind_reject in H.
    destruct H as [H|(closed & _ & H)];
      [now apply close_ring_no_reject in H|].
    apply (area_response_reject L now) in H. discriminate.
Qed.

Lemma extractor_count_check (vdata geojson_data geometry : pyval)
    (ring more : list pyval) :
  py_get vdata "geojson" (PDict []) = Value geojson_data ->
  first_geometry geojson_data = Value geometry ->
  member "type" geometry = Some (PStr "Polygon") ->
  member "coordinates" geometry = Some (PList (PList ring :: more)) ->
  verify_geojson vdata = Bad400 "Invalid polygon coordinates"
    <-> (List.length ring < 3)%nat.
Proof.
  intros Hg Hgeo Hty Hring.
  unfold verify_geojson. rewrite handle_bad. unfold verify_body.
  rewrite Hg. simpl bind. rewrite Hgeo. simpl bind.
  destruct geometry as [| | | | | |g]; try discriminate. simpl in Hty, Hring.
  simpl py_get. rewrite Hty, Hring. simpl.
  destruct (Z.of_nat (List.length ring) <? 3) eqn:Hlt.
  - apply Z.ltb_lt in Hlt. split; [lia | trivial].
  - apply Z.ltb_ge in Hlt. split; [|lia]. intros H. exfalso.
    apply bind_reject in H.
    destruct H as [H|(leaflet & _ & H)];
      [now apply comprehension_no_reject in H;
         [|intros; apply leaflet_order_no_reject]|].
    apply bind_reject in H.
    destruct H as [H|(props & _ & H)];
      [now apply first_properties_no_reject in H|discriminate].
Qed.

(** C2, amended. Both checks count the entries of the coordinate list,
    repeated vertices included: the calculator answers the
    insufficient-vertices error exactly when its list has fewer than 3
    entries, and so does the extractor for the outer ring of the Polygon
    it resolved. *)
Theorem vertex_count_checks (L : libraries) (now : string)
    (data : pyval) (coordinates : list pyval)
    (vdata geojson_data geometry : pyval) (ring more : list pyval) :
  py_get data "coordinates" (PList []) = Value (PList coordinates) ->
  py_get vdata "geojson" (PDict []) = Value geojson_data ->
  first_geometry geojson_data = Value geometry ->
  member "type" geometry = Some (PStr "Polygon") ->
  member "coordinates" geometry = Some (PList (PList ring :: more)) ->
  (calculate_area L now data = Bad400 "At least 3 coordinates required"
     <-> (List.length coordinates < 3)%nat) /\
  (verify_geojson vdata = Bad400 "Invalid polygon coordinates"
     <-> (List.length ring < 3)%nat).
Proof.
  intros Hc Hg Hgeo Hty Hring. split.
  - now apply calculator_count_check.
  - now apply (extractor_count_check vdata geojson_data geometry ring more).
Qed.

Lemma vertex_count_checks_witness :
  (calculate_area lattice_libs "2024-05-01T10:00:00" (calculate_request two_points)
     = Bad400 "At least 3 coordinates required"
   <-> (List.length two_points < 3)%nat) /\
  (verify_geojson (verify_request (polygon_geometry two_points))
     = Bad400 "Invalid polygon coordinates"
   <-> (List.length two_points < 3)%nat).
Proof.
  apply (vertex_count_checks lattice_libs "2024-05-01T10:00:00"
           (calculate_request two_points) two_points
           (verify_request (polygon_geometry two_points))
           (polygon_geometry two_points) (polygon_geometry two_points)
           two_points []); reflexivity.
Defined.

(** C2 as stated fails: a list of one vertex three times has fewer than
    3 distinct vertices, the extractor accepts it, and the calculator,
    with any libraries, answers something else than the
    insufficient-vertices error. *)
Lemma repeated_vertex_passes :
  ~ has_distinct 3 same_point_thrice /\
  verify_geojson (verify_request (polygon_geometry same_point_thrice))
    = Ok200 (PDict [("coordinates", PList same_point_thrice);
                    ("properties", PDict [])]) /\
  forall L now,
    calculate_area L now (calculate_request same_point_thrice)
      <> Bad400 "At least 3 coordinates required".
Proof.
  split; [|split].
  - intros (vs & Hnd & Hincl & Hlen).
    assert (Hone : incl vs [point 0 0]).
    { intros v Hv. apply Hincl in Hv. simpl in Hv. simpl. intuition. }
    pose proof (NoDup_incl_length Hnd Hone) as Hle. simpl in Hle. lia.
  - reflexivity.
  - intros L now H.
    apply (calculator_count_check L now _ same_point_thrice) in H;
      [simpl in H; lia | reflexivity].
Qed.

(** ** The closed ring *)

Lemma close_ring_value (rounded ring : list vertex) :
  close_ring rounded = Value ring ->
  exists first rest,
    rounded = first :: rest /\
    ring = if vertex_eqb first (last rounded first)
           then rounded else rounded ++ [first].
Proof.
  destruct rounded as [|first rest]; simpl; try discriminate.
  intros H. exists first, rest. split; trivial.
  destruct (vertex_eqb first _); now inversion H.
Qed.

Lemma close_ring_length (rounded ring : list vertex) :
  close_ring rounded = Value ring ->
  (List.length rounded <= List.length ring)%nat.
Proof.
  intros H. apply close_ring_value in H. destruct H as (first & rest & -> & ->).
  destruct (vertex_eqb first _); [lia|]. rewrite length_app. lia.
Qed.

Lemma leaflet_order_ring (ring : list vertex) :
  comprehension leaflet_order (map vertex_val ring)
    = Value (map leaflet_val ring).
Proof.
  induction ring as [|v t IH]; simpl; trivial. now rewrite IH.
Qed.

(** The extractor on an answer of the calculator, and on its feature. *)
Lemma verify_feature_collection (ring : list vertex) (area_ha area_m2 : float)
    (now : string) (n : Z) :
  (3 <= List.length ring)%nat ->
  verify_geojson (verify_request (feature_collection ring area_ha area_m2 now n))
    = Ok200 (PDict [("coordinates", PList (map leaflet_val ring));
                    ("properties",
                     PDict [("area_ha", PFloat area_ha);
                            ("area_m2", PFloat area_m2);
                            ("timestamp", PStr (now ++ "Z")%string);
                            ("coordinate_count", PInt n)])]).
Proof.
  intros Hlen. unfold verify_geojson, verify_body, verify_request,
    feature_collection. simpl. rewrite length_map.
  destruct (Z.of_nat (List.length ring) <? 3) eqn:Hlt;
    [apply Z.ltb_lt in Hlt; lia|].
  now rewrite leaflet_order_ring.
Qed.

Lemma verify_feature (ring : list vertex) (properties : pyval) :
  (3 <= List.length ring)%nat ->
  verify_geojson
    (verify_request
       (PDict [("type", PStr "Feature");
               ("geometry",
                PDict [("type", PStr "Polygon");
                       ("coordinates", PList [PList (map vertex_val ring)])]);
               ("properties", properties)]))
    = Ok200 (PDict [("coordinates", PList (map leaflet_val ring));
                    ("properties", PDict [])]).
Proof.
  intros Hlen. unfold verify_geojson, verify_body, verify_request. simpl.
  rewrite length_map.
  destruct (Z.of_nat (List.length ring) <? 3) eqn:Hlt;
    [apply Z.ltb_lt in Hlt; lia|].
  now rewrite leaflet_order_ring.
Qed.

(** ** Claims on the calculator's answer *)


(** C6. For every accepted coordinate list, the extractor applied to the
    calculator's answer (the FeatureCollection, or its Feature) returns
    the input pairs in latitude-first order with each value rounded to 6
    places, followed by the closing vertex when one was appended. *)
Theorem calculate_then_verify (L : libraries) (now : string)
    (data body : pyval) :
  calculate_area L now data = Ok200 body -> round_trip L data body.
Proof.
  intros H. apply calculate_ok in H.
  destruct H as (rounded & ring & p & area & per & Hr & Hc & _ & _ & _ & ->).
  pose proof (close_ring_length _ _ Hc) as Hlen.
  apply close_ring_value in Hc. destruct Hc as (first & rest & Hrounded & Hring).
  destruct (rounded_coords_items L data rounded Hr)
    as (coordinates & items & Hget & Hiter & Hall & H3).
  assert (Hclosing : exists closing,
             (closing = [] \/ closing = firstn 1 rounded) /\
             ring = rounded ++ closing).
  { subst ring. destruct (vertex_eqb first _).
    - exists []. split; [now left | now rewrite app_nil_r].
    - exists [first]. split; [right; now subst rounded | trivial]. }
  destruct Hclosing as (closing & Hclosing & ->).
  eexists coordinates, items, rounded, closing, _.
  split; [exact Hget|]. split; [exact Hiter|]. split; [exact Hall|].
  split; [exact Hclosing|]. split; [reflexivity|]. split.
  - rewrite verify_feature_collection by lia. reflexivity.
  - apply verify_feature. lia.
Qed.

(** C8. In every successful answer, with [a] the absolute value of the
    area the geodesic routine returns, area_m2 is [a] rounded to 2
    places and area_ha is [a / 10000] rounded to 4 places. *)
Theorem area_rounding (L : libraries) (now : string) (data body : pyval) :
  calculate_area L now data = Ok200 body -> area_figures L data body.
Proof.
  intros H. apply calculate_ok in H.
  destruct H as (rounded & ring & p & area & per & Hr & Hc & _ & _ & Ha & ->).
  exists rounded, ring, area, per. repeat split; trivial.
Qed.

(** C7, amended. The answer depends on the time of the call through the
    timestamp alone: at two times, either the request is not accepted
    and the two answers are the same, or both answers are the same
    FeatureCollection up to its timestamp. *)
Theorem clock_only_in_timestamp (L : libraries) (now1 now2 : string)
    (data : pyval) :
  ((forall body, calculate_area L now1 data <> Ok200 body) /\
   calculate_area L now2 data = calculate_area L now1 data) \/
  (exists ring area_ha area_m2 n,
     calculate_area L now1 data
       = Ok200 (feature_collection ring area_ha area_m2 now1 n) /\
     calculate_area L now2 data
       = Ok200 (feature_collection ring area_ha area_m2 now2 n)).
Proof.
  unfold calculate_area. rewrite !calculate_body_stages.
  destruct (rounded_coords L data) as [rounded|msg|e]; simpl;
    try (left; split; [discriminate | reflexivity]).
  destruct (close_ring rounded) as [ring|msg|e]; simpl;
    try (left; split; [discriminate | reflexivity]).
  unfold area_response.
  destruct (Polygon L ring) as [e|p]; simpl;
    try (left; split; [discriminate | reflexivity]).
  destruct (is_valid L p); simpl;
    try (left; split; [discriminate | reflexivity]).
  destruct (polygon_area_perimeter L _ _) as [e|[area per]]; simpl;
    try (left; split; [discriminate | reflexivity]).
  right. do 4 eexists. split; reflexivity.
Qed.

(** ** The unit square through the calculator *)

Lemma calculate_unit_square_at (now : string) :
  calculate_area lattice_libs now (calculate_request unit_square)
  = Ok200 (unit_square_answer now).
Proof. reflexivity. Qed.


Lemma calculate_then_verify_witness :
  calculate_area lattice_libs "2024-05-01T10:00:00" (calculate_request unit_square)
    = Ok200 (unit_square_answer "2024-05-01T10:00:00") /\
  round_trip lattice_libs (calculate_request unit_square)
    (unit_square_answer "2024-05-01T10:00:00").
Proof.
  split; [reflexivity|].
  apply (calculate_then_verify lattice_libs "2024-05-01T10:00:00"). reflexivity.
Defined.

Lemma area_rounding_witness :
  calculate_area lattice_libs "2024-05-01T10:00:00" (calculate_request unit_square)
    = Ok200 (unit_square_answer "2024-05-01T10:00:00") /\
  area_figures lattice_libs (calculate_request unit_square)
    (unit_square_answer "2024-05-01T10:00:00").
Proof.
  split; [reflexivity|].
  apply (area_rounding lattice_libs "2024-05-01T10:00:00"). reflexivity.
Defined.

(** C7 as stated fails: the same request a second later is answered
    with another timestamp. *)
Lemma timestamp_differs :
  calculate_area lattice_libs "2024-05-01T10:00:00" (calculate_request unit_square)
  <> calculate_area lattice_libs "2024-05-01T10:00:01" (calculate_request unit_square).
Proof. rewrite !calculate_unit_square_at. discriminate. Qed.

(** ** Invalid geometry *)

Section Validity.

Variable L : libraries.

(** [simple_ring ring]: the closed ring does not cross itself and
    encloses an area that is not zero.  What shapely's [is_valid]
    promises is taken as the hypothesis [is_valid_simple]. *)
Variable simple_ring : list vertex -> Prop.

Hypothesis is_valid_simple :
  forall ring p,
    Polygon L ring = inr p -> is_valid L p = true -> simple_ring ring.


End Validity.

(** ** Winding order *)

Lemma rounds_to_functional (L : libraries) (item : pyval) (v v' : vertex) :
  rounds_to L item v -> rounds_to L item v' -> v = v'.
Proof.
  intros (lat & lng & Hu & Hx & Hy) (lat' & lng' & Hu' & Hx' & Hy').
  rewrite Hu in Hu'. inversion Hu'; subst lat' lng'.
  rewrite Hx in Hx'. rewrite Hy in Hy'. inversion Hx'. inversion Hy'.
  destruct v, v'; simpl in *; congruence.
Qed.

Lemma Forall2_functional {A B} (R : A -> B -> Prop) (l : list A) (r r' : list B) :
  (forall x y y', R x y -> R x y' -> y = y') ->
  Forall2 R l r -> Forall2 R l r' -> r = r'.
Proof.
  intros HR H. revert r'. induction H as [|x y l r Hxy _ IH]; intros r' H';
    inversion H'; subst; trivial.
  f_equal; eauto.
Qed.

Lemma Forall2_reversed {A B} (R : A -> B -> Prop) (l : list A) (r : list B) :
  Forall2 R l r -> Forall2 R (rev l) (rev r).
Proof.
  induction 1 as [|x y l r Hxy _ IH]; simpl; [constructor|].
  apply Forall2_app; [exact IH | repeat constructor; exact Hxy].
Qed.

Section Winding.

Variable L : libraries.

(** What the geodesic area of a polygon does not depend on, taken as
    hypotheses on pyproj's routine: the direction the vertices are
    listed in, the vertex the list starts from, and a vertex listed
    twice in a row. *)
Hypothesis area_reversed :
  forall ring, unsigned_area L (rev ring) = unsigned_area L ring.
Hypothesis area_rotated :
  forall v ring, unsigned_area L (ring ++ [v]) = unsigned_area L (v :: ring).
Hypothesis area_repeated :
  forall v ring, unsigned_area L (v :: v :: ring) = unsigned_area L (v :: ring).

Lemma close_ring_area (rounded ring : list vertex) :
  close_ring rounded = Value ring ->
  unsigned_area L ring = unsigned_area L rounded.
Proof.
  intros H. apply close_ring_value in H. destruct H as (first & rest & -> & ->).
  destruct (vertex_eqb first _); trivial.
  now rewrite area_rotated, area_repeated.
Qed.

(** C5. Taking from pyproj that the absolute area is the same for a
    vertex list reversed, started from another vertex, or with a vertex
    listed twice in a row: when the calculator accepts a coordinate list
    and the same list in reverse order, the two answers hold the same
    area_m2 and the same area_ha. *)
Theorem area_winding_invariant (now1 now2 : string)
    (coordinates : list pyval) (body1 body2 : pyval) :
  calculate_area L now1 (calculate_request coordinates) = Ok200 body1 ->
  calculate_area L now2 (calculate_request (rev coordinates)) = Ok200 body2 ->
  exists area_m2 area_ha,
    response_property "area_m2" body1 = Some (PFloat area_m2) /\
    response_property "area_m2" body2 = Some (PFloat area_m2) /\
    response_property "area_ha" body1 = Some (PFloat area_ha) /\
    response_property "area_ha" body2 = Some (PFloat area_ha).
Proof.
  intros H1 H2. apply calculate_ok in H1, H2.
  destruct H1 as (r1 & ring1 & p1 & a1 & per1 & Hr1 & Hc1 & _ & _ & Ha1 & ->).
  destruct H2 as (r2 & ring2 & p2 & a2 & per2 & Hr2 & Hc2 & _ & _ & Ha2 & ->).
  assert (Hrev : r2 = rev r1).
  { apply rounded_coords_items in Hr1, Hr2.
    destruct Hr1 as (c1 & i1 & Hg1 & Hi1 & Hall1 & _).
    destruct Hr2 as (c2 & i2 & Hg2 & Hi2 & Hall2 & _).
    inversion Hg1; subst c1. inversion Hi1; subst i1.
    inversion Hg2; subst c2. inversion Hi2; subst i2.
    apply Forall2_reversed in Hall1.
    apply (Forall2_functional _ _ _ _ (rounds_to_functional L) Hall2 Hall1). }
  assert (Habs : PrimFloat.abs a2 = PrimFloat.abs a1).
  { pose proof (close_ring_area _ _ Hc1) as E1.
    pose proof (close_ring_area _ _ Hc2) as E2.
    rewrite Hrev, area_reversed, <- E1 in E2.
    unfold unsigned_area in E2. rewrite Ha1, Ha2 in E2. now inversion E2. }
  exists (float_round L (PrimFloat.abs a1) 2),
         (float_round L (PrimFloat.abs a1 / 10000)%float 4).
  repeat split; simpl; rewrite ?Habs; reflexivity.
Qed.

End Winding.

(** ** The lattice model meets the hypotheses *)

Lemma cross_antisym (p q : Z * Z) : cross q p = - cross p q.
Proof. unfold cross. lia. Qed.

Lemma cross_self (p : Z * Z) : cross p p = 0.
Proof. unfold cross. lia. Qed.

Lemma chain_cons (p : Z * Z) (l : list (Z * Z)) :
  chain (p :: l) = cross p (hd p l) + chain l.
Proof. destruct l; simpl; [rewrite cross_self|]; lia. Qed.

Lemma chain_snoc (l : list (Z * Z)) (p : Z * Z) :
  chain (l ++ [p]) = chain l + cross (last l p) p.
Proof.
  induction l as [|x l IH].
  - simpl. now rewrite cross_self.
  - change ((x :: l) ++ [p]) with (x :: (l ++ [p])).
    rewrite !chain_cons, IH. destruct l as [|y l].
    + simpl. rewrite !cross_self. lia.
    + change (last (x :: y :: l) p) with (last (y :: l) p). simpl hd. lia.
Qed.

Lemma last_rev {A} (l : list A) (d : A) : last (rev l) d = hd d l.
Proof. destruct l; simpl; trivial. apply last_last. Qed.

Lemma hd_rev {A} (l : list A) (d : A) : hd d (rev l) = last l d.
Proof.
  rewrite <- (rev_involutive l) at 2. now rewrite last_rev.
Qed.

Lemma chain_rev (l : list (Z * Z)) : chain (rev l) = - chain l.
Proof.
  induction l as [|x l IH]; trivial.
  simpl rev. rewrite chain_snoc, chain_cons, IH, last_rev.
  rewrite (cross_antisym x (hd x l)). lia.
Qed.

Lemma last_cons {A} (x : A) (l : list A) (d d' : A) :
  last (x :: l) d = last (x :: l) d'.
Proof.
  revert x. induction l as [|y l IH]; intros x; trivial.
  change (last (y :: l) d = last (y :: l) d'). apply IH.
Qed.

(** The closing edge runs from the last point to the first. *)
Lemma twice_area_closing (l : list (Z * Z)) (d : Z * Z) :
  twice_area l = chain l + cross (last l d) (hd d l).
Proof.
  destruct l as [|p t].
  - simpl. now rewrite cross_self.
  - unfold twice_area. rewrite chain_snoc. simpl hd.
    now rewrite (last_cons p t p d).
Qed.

Lemma twice_area_rev (l : list (Z * Z)) : twice_area (rev l) = - twice_area l.
Proof.
  destruct l as [|p t]; trivial.
  rewrite (twice_area_closing (rev (p :: t)) p), (twice_area_closing (p :: t) p).
  rewrite chain_rev, last_rev, hd_rev.
  rewrite (cross_antisym (hd p (p :: t)) (last (p :: t) p)). lia.
Qed.

Lemma twice_area_rotate (v : Z * Z) (l : list (Z * Z)) :
  twice_area (l ++ [v]) = twice_area (v :: l).
Proof.
  rewrite (twice_area_closing (l ++ [v]) v), (twice_area_closing (v :: l) v).
  rewrite chain_snoc, chain_cons, last_last. simpl hd.
  destruct l as [|x l].
  - simpl. lia.
  - change (last (v :: x :: l) v) with (last (x :: l) v). simpl hd. lia.
Qed.

Lemma twice_area_repeat (v : Z * Z) (l : list (Z * Z)) :
  twice_area (v :: v :: l) = twice_area (v :: l).
Proof.
  rewrite (twice_area_closing (v :: v :: l) v), (twice_area_closing (v :: l) v).
  change (last (v :: v :: l) v) with (last (v :: l) v).
  rewrite (chain_cons v (v :: l)). simpl hd. rewrite cross_self. lia.
Qed.

Lemma float_abs_opp (x : float) : PrimFloat.abs (- x) = PrimFloat.abs x.
Proof.
  rewrite <- (SF2Prim_Prim2SF (PrimFloat.abs (- x))).
  rewrite <- (SF2Prim_Prim2SF (PrimFloat.abs x)).
  rewrite !abs_spec, opp_spec. now destruct (Prim2SF x).
Qed.

Lemma signed_half_opp (z : Z) :
  PrimFloat.abs (signed_half (- z)) = PrimFloat.abs (signed_half z).
Proof.
  unfold signed_half, magnitude. rewrite Z.abs_opp.
  destruct (- z <? 0) eqn:E1, (z <? 0) eqn:E2; rewrite ?float_abs_opp; trivial.
Qed.

Lemma combine_fst_snd {A B} (l : list (A * B)) :
  combine (map fst l) (map snd l) = l.
Proof. induction l as [|[a b] l IH]; simpl; congruence. Qed.

Lemma lattice_unsigned_area (ring : list vertex) :
  unsigned_area lattice_libs ring
  = Some (PrimFloat.abs (signed_half (twice_area (map lattice_point ring)))).
Proof. unfold unsigned_area. simpl. now rewrite combine_fst_snd. Qed.

Lemma lattice_area_reversed (ring : list vertex) :
  unsigned_area lattice_libs (rev ring) = unsigned_area lattice_libs ring.
Proof.
  rewrite !lattice_unsigned_area, map_rev, twice_area_rev.
  now rewrite signed_half_opp.
Qed.

Lemma lattice_area_rotated (v : vertex) (ring : list vertex) :
  unsigned_area lattice_libs (ring ++ [v]) = unsigned_area lattice_libs (v :: ring).
Proof.
  rewrite !lattice_unsigned_area, map_app. simpl map.
  now rewrite twice_area_rotate.
Qed.

Lemma lattice_area_repeated (v : vertex) (ring : list vertex) :
  unsigned_area lattice_libs (v :: v :: ring) = unsigned_area lattice_libs (v :: ring).
Proof.
  rewrite !lattice_unsigned_area. simpl map. now rewrite twice_area_repeat.
Qed.



Lemma area_winding_invariant_witness :
  calculate_area lattice_libs "2024-05-01T10:00:00"
    (calculate_request unit_square)
    = Ok200 (unit_square_answer "2024-05-01T10:00:00") /\
  calculate_area lattice_libs "2024-05-01T10:00:01"
    (calculate_request (rev unit_square))
    = Ok200 (reversed_square_answer "2024-05-01T10:00:01") /\
  exists area_m2 area_ha,
    response_property "area_m2" (unit_square_answer "2024-05-01T10:00:00")
      = Some (PFloat area_m2) /\
    response_property "area_m2" (reversed_square_answer "2024-05-01T10:00:01")
      = Some (PFloat area_m2) /\
    response_property "area_ha" (unit_square_answer "2024-05-01T10:00:00")
      = Some (PFloat area_ha) /\
    response_property "area_ha" (reversed_square_answer "2024-05-01T10:00:01")
      = Some (PFloat area_ha).
Proof.
  split; [reflexivity|]. split; [reflexivity|].
  apply (area_winding_invariant lattice_libs lattice_area_reversed
           lattice_area_rotated lattice_area_repeated
           "2024-05-01T10:00:00" "2024-05-01T10:00:01" unit_square);
    reflexivity.
Defined.

(** * More of the two handlers *)

(** ** The 400 answers *)

Lemma py_len_no_reject v msg : py_len v <> Reject msg.
Proof. destruct v; discriminate. Qed.

Lemma rounded_coords_reject L data msg :
  rounded_coords L data = Reject msg ->
  msg = "At least 3 coordinates required".
Proof.
  unfold rounded_coords. intros H. apply bind_reject in H.
  destruct H as [H|(c & _ & H)]; [now apply py_get_no_reject in H|].
  apply bind_reject in H.
  destruct H as [H|(n & _ & H)]; [now apply py_len_no_reject in H|].
  destruct (n <? 3); [now inversion H|]. exfalso.
  apply bind_reject in H.
  destruct H as [H|(items & _ & H)]; [now apply py_iter_no_reject in H|].
  apply bind_reject in H.
  destruct H as [H|(sw & _ & H)];
    [now apply comprehension_no_reject in H;
       [|intros; apply geojson_order_no_reject]|].
  now apply round_coordinates_no_reject in H.
Qed.

(** The calculator has two 400 answers and no other. *)
Theorem calculator_bad_requests (L : libraries) (now : string)
    (data : pyval) (msg : string) :
  calculate_area L now data = Bad400 msg ->
  msg = "At least 3 coordinates required" \/
  msg = "Invalid polygon geometry".
Proof.
  unfold calculate_area. rewrite handle_bad, calculate_body_stages.
  intros H. apply bind_reject in H.
  destruct H as [H|(rounded & _ & H)];
    [left; now apply rounded_coords_reject in H|].
  apply bind_reject in H.
  destruct H as [H|(ring & _ & H)]; [now apply close_ring_no_reject in H|].
  right. now apply area_response_reject in H.
Qed.

Lemma calculator_bad_requests_witness :
  "Invalid polygon geometry" = "At least 3 coordinates required" \/
  "Invalid polygon geometry" = "Invalid polygon geometry".
Proof.
  apply (calculator_bad_requests lattice_libs "2024-05-01T10:00:00"
           (calculate_request bowtie)).
  reflexivity.
Defined.

Lemma first_geometry_reject gd msg :
  first_geometry gd = Reject msg -> msg = "No features found in GeoJSON".
Proof.
  unfold first_geometry. intros H. apply bind_reject in H.
  destruct H as [H|(t & _ & H)]; [now apply py_get_no_reject in H|].
  destruct (py_is_str t "FeatureCollection").
  - apply bind_reject in H.
    destruct H as [H|(fs & _ & H)]; [now apply py_get_no_reject in H|].
    destruct (py_truthy fs); simpl in H; [|now inversion H].
    exfalso. apply bind_reject in H.
    destruct H as [H|(f & _ & H)]; [now apply py_index0_no_reject in H|].
    now apply py_get_no_reject in H.
  - exfalso. apply bind_reject in H.
    destruct H as [H|(t' & _ & H)]; [now apply py_get_no_reject in H|].
    destruct (py_is_str t' "Feature"); [now apply py_get_no_reject in H|].
    discriminate.
Qed.

(** The extractor has three 400 answers and no other. *)
Theorem extractor_bad_requests (data : pyval) (msg : string) :
  verify_geojson data = Bad400 msg ->
  msg = "No features found in GeoJSON" \/
  msg = "Only Polygon geometry supported" \/
  msg = "Invalid polygon coordinates".
Proof.
  unfold verify_geojson. rewrite handle_bad. unfold verify_body.
  intros H. apply bind_reject in H.
  destruct H as [H|(gd & _ & H)]; [now apply py_get_no_reject in H|].
  apply bind_reject in H.
  destruct H as [H|(geometry & _ & H)];
    [left; now apply first_geometry_reject in H|].
  right. apply bind_reject in H.
  destruct H as [H|(gt & _ & H)]; [now apply py_get_no_reject in H|].
  destruct (py_is_str gt "Polygon"); simpl in H; [|left; now inversion H].
  right. apply bind_reject in H.
  destruct H as [H|(rings & _ & H)]; [now apply py_get_no_reject in H|].
  apply bind_reject in H.
  destruct H as [H|(ring & _ & H)]; [now apply py_index0_no_reject in H|].
  apply bind_reject in H.
  destruct H as [H|(n & _ & H)]; [now apply py_len_no_reject in H|].
  destruct (n <? 3); [now inversion H|]. exfalso.
  apply bind_reject in H.
  destruct H as [H|(items & _ & H)]; [now apply py_iter_no_reject in H|].
  apply bind_reject in H.
  destruct H as [H|(leaflet & _ & H)];
    [now apply comprehension_no_reject in H;
       [|intros; apply leaflet_order_no_reject]|].
  apply bind_reject in H.
  destruct H as [H|(props & _ & H)];
    [now apply first_properties_no_reject in H|discriminate].
Qed.

Lemma extractor_bad_requests_witness :
  "Invalid polygon coordinates" = "No features found in GeoJSON" \/
  "Invalid polygon coordinates" = "Only Polygon geometry supported" \/
  "Invalid polygon coordinates" = "Invalid polygon coordinates".
Proof.
  apply (extractor_bad_requests (verify_request (polygon_geometry two_points))).
  reflexivity.
Defined.

(** ** What the calculator accepts *)

Lemma py_round_number L v n x :
  py_round L v n = Value x -> is_number v = true.
Proof. unfold py_round. destruct v; simpl; trivial; discriminate. Qed.

Lemma rounds_to_number_pair L item v :
  rounds_to L item v -> number_pair item.
Proof.
  intros (lat & lng & Hu & Hx & Hy).
  apply py_round_number in Hx, Hy.
  unfold unpack2 in Hu. bind_split Hu as l Hl.
  destruct l as [|a [|b [|c l]]]; try discriminate. inversion Hu; subst a b.
  destruct item; simpl in Hl; try discriminate; inversion Hl as [Hl'].
  - exfalso. unfold chars in Hl'.
    destruct (list_ascii_of_string s) as [|c cs]; simpl in Hl'; try discriminate.
    inversion Hl'; subst lat. discriminate.
  - exists lat, lng. auto.
  - exfalso. destruct d as [|kv d]; simpl in Hl'; try discriminate.
    inversion Hl'; subst lat. discriminate.
Qed.

Lemma Forall2_Forall_left {A B} (R : A -> B -> Prop) (P : A -> Prop)
    (l : list A) (r : list B) :
  (forall x y, R x y -> P x) -> Forall2 R l r -> Forall P l.
Proof. intros HR. induction 1; constructor; eauto. Qed.

(** The list behind the rounded coordinates. *)
Lemma rounded_coords_list (L : libraries) (data : pyval)
    (rounded : list vertex) :
  rounded_coords L data = Value rounded ->
  exists coords,
    member "coordinates" data = Some (PList coords) /\
    (3 <= List.length coords)%nat /\
    Forall2 (rounds_to L) coords rounded.
Proof.
  intros Hr. apply rounded_coords_items in Hr.
  destruct Hr as (coordinates & items & Hget & Hiter & Hall & Hlen).
  pose proof (Forall2_length Hall) as Hsame.
  assert (Hnum : Forall number_pair items).
  { revert Hall. apply Forall2_Forall_left.
    intros x y. apply rounds_to_number_pair. }
  assert (Hlist : coordinates = PList items).
  { destruct coordinates; simpl in Hiter; try discriminate;
      inversion Hiter as [Hi]; trivial; exfalso.
    - unfold chars in Hi. destruct (list_ascii_of_string s); simpl in Hi;
        subst items; simpl in *; [lia|].
      inversion Hnum as [|x xs (lat & lng & Hx & _) _]. discriminate.
    - destruct d; simpl in Hi; subst items; simpl in *; [lia|].
      inversion Hnum as [|x xs (lat & lng & Hx & _) _]. discriminate. }
  subst coordinates. exists items. repeat split; trivial; [|lia].
  apply py_get_value in Hget. destruct Hget as (d & -> & Hd). simpl.
  destruct (lookup "coordinates" d); simpl in Hd; [congruence|].
  inversion Hd; subst items. simpl in *. lia.
Qed.

(** The calculator accepts nothing but a list of at least three entries,
    each a list of two numbers: a string or an object for the list or for
    an entry, a null, a string or a list for a coordinate, an entry of
    three values are never answered 200. *)
Theorem accepted_input_well_formed (L : libraries) (now : string)
    (data body : pyval) :
  calculate_area L now data = Ok200 body ->
  exists coords,
    member "coordinates" data = Some (PList coords) /\
    (3 <= List.length coords)%nat /\
    Forall number_pair coords.
Proof.
  intros H. apply calculate_ok in H.
  destruct H as (rounded & _ & _ & _ & _ & Hr & _).
  apply rounded_coords_list in Hr. destruct Hr as (coords & Hm & Hlen & Hall).
  exists coords. repeat split; trivial.
  revert Hall. apply Forall2_Forall_left.
  intros x y. apply rounds_to_number_pair.
Qed.

Lemma accepted_input_well_formed_witness :
  exists coords,
    member "coordinates" (calculate_request unit_square) = Some (PList coords) /\
    (3 <= List.length coords)%nat /\
    Forall number_pair coords.
Proof.
  apply (accepted_input_well_formed lattice_libs "2024-05-01T10:00:00"
           (calculate_request unit_square)
           (unit_square_answer "2024-05-01T10:00:00")).
  reflexivity.
Defined.

(** ** Malformed entries *)

Lemma comprehension_raise {A B} (f : A -> outcome B) (l : list A) (e : pyexc) :
  Forall (fun x => (exists y, f x = Value y) \/ f x = Raise e) l ->
  Exists (fun x => f x = Raise e) l ->
  comprehension f l = Raise e.
Proof.
  induction 1 as [|x l [[y Hy]|Hx] _ IH]; intros Hex.
  - inversion Hex.
  - simpl. rewrite Hy. simpl.
    inversion Hex as [? ? Hx|? ? Hl]; subst; [congruence|].
    now rewrite (IH Hl).
  - simpl. now rewrite Hx.
Qed.

Lemma comprehension_map {A B} (f : A -> outcome B) (g : A -> B) (l : list A) :
  Forall (fun x => f x = Value (g x)) l ->
  comprehension f l = Value (map g l).
Proof.
  induction 1 as [|x l Hx _ IH]; simpl; trivial. now rewrite Hx, IH.
Qed.

Lemma geojson_order_list (item : pyval) :
  is_list item = true ->
  (exists lat lng, item = PList [lat; lng] /\
                   geojson_order item = Value (lng, lat)) \/
  (is_pair item = false /\ geojson_order item = Raise ValueError).
Proof.
  destruct item as [| | | | |l|]; try discriminate. intros _.
  destruct l as [|a [|b [|c l]]]; try (right; split; reflexivity).
  left. exists a, b. split; reflexivity.
Qed.

Lemma leaflet_order_list (item : pyval) :
  is_list item = true ->
  (exists lng lat, item = PList [lng; lat] /\
                   leaflet_order item = Value (PList [lat; lng])) \/
  (is_pair item = false /\ leaflet_order item = Raise ValueError).
Proof.
  destruct item as [| | | | |l|]; try discriminate. intros _.
  destruct l as [|a [|b [|c l]]]; try (right; split; reflexivity).
  left. exists a, b. split; reflexivity.
Qed.

(** [round] on the two values of a pair. *)
Lemma round_pair_cases L (c : pyval * pyval) (n : Z) :
  (is_number (fst c) = true /\ is_number (snd c) = true /\
   exists v, (x <- py_round L (fst c) n ;;
              y <- py_round L (snd c) n ;; Value (x, y)) = Value v) \/
  ((is_number (fst c) = false \/ is_number (snd c) = false) /\
   (x <- py_round L (fst c) n ;;
    y <- py_round L (snd c) n ;; Value (x, y)) = Raise TypeError).
Proof.
  destruct c as [a b]. unfold py_round. simpl.
  destruct a; simpl; try (right; split; [now left | reflexivity]);
    destruct b; simpl; try (right; split; [now right | reflexivity]);
    left; repeat split; eauto.
Qed.

Lemma is_pair_list (item : pyval) : is_pair item = true -> is_list item = true.
Proof. destruct item; trivial; discriminate. Qed.

Lemma geojson_order_pairs (coords : list pyval) :
  Forall (fun item => is_pair item = true) coords ->
  comprehension geojson_order coords = Value (map entry_pair coords).
Proof.
  intros H. apply comprehension_map. revert H. apply Forall_impl.
  intros item Hp.
  destruct item as [| | | | |l|]; try discriminate.
  destruct l as [|a [|b [|c l]]]; try discriminate. reflexivity.
Qed.

(** A list of at least three entries, each of them a list, one of which
    does not hold two values (a position with an altitude, say), is
    answered 500 with ValueError by the calculator. *)
Theorem wrong_arity_fails (L : libraries) (now : string)
    (data : pyval) (coords : list pyval) :
  py_get data "coordinates" (PList []) = Value (PList coords) ->
  (3 <= List.length coords)%nat ->
  Forall (fun item => is_list item = true) coords ->
  Exists (fun item => is_pair item = false) coords ->
  calculate_area L now data = Err500 ValueError.
Proof.
  intros Hget Hlen Hlists Hex.
  unfold calculate_area, calculate_body. rewrite Hget. simpl bind.
  destruct (Z.of_nat (List.length coords) <? 3) eqn:Hlt;
    [apply Z.ltb_lt in Hlt; lia|]. clear Hlt.
  rewrite (comprehension_raise geojson_order coords ValueError).
  - reflexivity.
  - revert Hlists. apply Forall_impl. intros item Hl.
    destruct (geojson_order_list item Hl) as [(lat & lng & _ & H)|[_ H]];
      eauto.
  - rewrite Exists_exists in *. destruct Hex as (item & Hin & Hp).
    exists item. split; trivial.
    rewrite Forall_forall in Hlists.
    destruct (geojson_order_list item (Hlists item Hin))
      as [(lat & lng & -> & _)|[_ H]]; [discriminate | exact H].
Qed.

Lemma wrong_arity_fails_witness :
  calculate_area lattice_libs "2024-05-01T10:00:00"
    (calculate_request with_altitude)
  = Err500 ValueError.
Proof.
  apply (wrong_arity_fails lattice_libs "2024-05-01T10:00:00"
           (calculate_request with_altitude) with_altitude).
  - reflexivity.
  - simpl. lia.
  - repeat constructor.
  - apply Exists_cons_tl, Exists_cons_hd. reflexivity.
Defined.

(** A list of at least three entries, each a list of two values, one of
    which is not a number (a string, a null, a list, an object), is
    answered 500 with TypeError by the calculator. *)
Theorem non_number_fails (L : libraries) (now : string)
    (data : pyval) (coords : list pyval) :
  py_get data "coordinates" (PList []) = Value (PList coords) ->
  (3 <= List.length coords)%nat ->
  Forall (fun item => is_pair item = true) coords ->
  Exists (fun item => ~ number_pair item) coords ->
  calculate_area L now data = Err500 TypeError.
Proof.
  intros Hget Hlen Hpairs Hex.
  unfold calculate_area, calculate_body. rewrite Hget. simpl bind.
  destruct (Z.of_nat (List.length coords) <? 3) eqn:Hlt;
    [apply Z.ltb_lt in Hlt; lia|]. clear Hlt.
  rewrite (geojson_order_pairs coords Hpairs). simpl bind.
  unfold round_coordinates.
  rewrite (comprehension_raise _ (map entry_pair coords) TypeError).
  - reflexivity.
  - apply Forall_forall. intros c _.
    destruct (round_pair_cases L c 6) as [(_ & _ & v & H)|[_ H]]; eauto.
  - rewrite Exists_exists in *. destruct Hex as (item & Hin & Hnp).
    exists (entry_pair item). split; [now apply in_map|].
    destruct (round_pair_cases L (entry_pair item) 6)
      as [(Ha & Hb & _)|[_ H]]; [|exact H].
    exfalso. apply Hnp. rewrite Forall_forall in Hpairs.
    specialize (Hpairs item Hin).
    destruct item as [| | | | |l|]; try discriminate.
    destruct l as [|a [|b [|c l]]]; try discriminate.
    exists a, b. simpl in Ha, Hb. auto.
Qed.

Lemma non_number_fails_witness :
  calculate_area lattice_libs "2024-05-01T10:00:00"
    (calculate_request with_text)
  = Err500 TypeError.
Proof.
  apply (non_number_fails lattice_libs "2024-05-01T10:00:00"
           (calculate_request with_text) with_text).
  - reflexivity.
  - simpl. lia.
  - repeat constructor.
  - apply Exists_cons_hd. intros (lat & lng & H & Hlat & _).
    inversion H; subst lat. discriminate.
Defined.

(** ** What the extractor accepts *)

Lemma first_geometry_properties (gd geometry : pyval) :
  first_geometry gd = Value geometry ->
  exists properties, first_properties gd = Value properties.
Proof.
  unfold first_geometry, first_properties. intros H.
  bind_split H as t Ht. rewrite Ht. simpl.
  destruct (py_is_str t "FeatureCollection"); [|eauto].
  bind_split H as fs Hfs.
  destruct (py_truthy fs) eqn:Htr; simpl in H; try discriminate.
  bind_split H as f Hf.
  apply py_get_value in Hfs. destruct Hfs as (d & -> & Hfs). simpl.
  destruct (lookup "features" d) as [fs'|]; simpl in Hfs; subst fs;
    [|discriminate].
  simpl. rewrite Hf. simpl.
  apply py_get_value in H. destruct H as (fd & -> & _). simpl.
  destruct (lookup "properties" fd); eauto.
Qed.

(** The extractor's handling of the ring of a Polygon it resolved. *)
Lemma verify_resolved (vdata gd geometry ring : pyval) (more : list pyval) :
  py_get vdata "geojson" (PDict []) = Value gd ->
  first_geometry gd = Value geometry ->
  member "type" geometry = Some (PStr "Polygon") ->
  member "coordinates" geometry = Some (PList (ring :: more)) ->
  verify_geojson vdata =
  handle (n <- py_len ring ;;
          if n <? 3 then Reject "Invalid polygon coordinates"
          else
            items <- py_iter ring ;;
            leaflet_coords <- comprehension leaflet_order items ;;
            properties <- first_properties gd ;;
            Value (PDict [("coordinates", PList leaflet_coords);
                          ("properties", properties)])).
Proof.
  intros Hg Hgeo Hty Hring. unfold verify_geojson, verify_body.
  rewrite Hg. simpl bind. rewrite Hgeo. simpl bind.
  destruct geometry as [| | | | | |g]; try discriminate. simpl in Hty, Hring.
  simpl py_get. rewrite Hty, Hring. reflexivity.
Qed.

Lemma leaflet_order_pairs (pairs : list (pyval * pyval)) :
  comprehension leaflet_order (map pair_val pairs)
  = Value (map (fun c => pair_val (swap_pair c)) pairs).
Proof.
  induction pairs as [|[a b] l IH]; simpl; trivial. now rewrite IH.
Qed.

(** The extractor checks nothing of a ring of at least three pairs: the
    values need not be numbers nor the ring closed or simple; it answers
    200 with each pair swapped. *)
Theorem any_pairs_extracted (vdata gd geometry : pyval)
    (pairs : list (pyval * pyval)) (more : list pyval) :
  py_get vdata "geojson" (PDict []) = Value gd ->
  first_geometry gd = Value geometry ->
  member "type" geometry = Some (PStr "Polygon") ->
  member "coordinates" geometry
    = Some (PList (PList (map pair_val pairs) :: more)) ->
  (3 <= List.length pairs)%nat ->
  exists properties,
    first_properties gd = Value properties /\
    verify_geojson vdata
      = Ok200 (PDict [("coordinates",
                       PList (map (fun c => pair_val (swap_pair c)) pairs));
                      ("properties", properties)]).
Proof.
  intros Hg Hgeo Hty Hring Hlen.
  destruct (first_geometry_properties gd geometry Hgeo) as [props Hprops].
  exists props. split; trivial.
  rewrite (verify_resolved vdata gd geometry _ more Hg Hgeo Hty Hring).
  simpl. rewrite length_map.
  destruct (Z.of_nat (List.length pairs) <? 3) eqn:Hlt;
    [apply Z.ltb_lt in Hlt; lia|].
  rewrite leaflet_order_pairs. simpl. now rewrite Hprops.
Qed.

Lemma any_pairs_extracted_witness :
  exists properties,
    first_properties (polygon_geometry (map pair_val open_text_ring))
      = Value properties /\
    verify_geojson (verify_request (polygon_geometry (map pair_val open_text_ring)))
      = Ok200 (PDict [("coordinates",
                       PList (map (fun c => pair_val (swap_pair c))
                                open_text_ring));
                      ("properties", properties)]).
Proof.
  apply (any_pairs_extracted
           (verify_request (polygon_geometry (map pair_val open_text_ring)))
           (polygon_geometry (map pair_val open_text_ring))
           (polygon_geometry (map pair_val open_text_ring))
           open_text_ring []); try reflexivity; simpl; lia.
Defined.

(** A ring of at least three entries, each of them a list, one of which
    does not hold two values, is answered 500 with ValueError by the
    extractor: a position with an altitude is not read. *)
Theorem altitude_not_extracted (vdata gd geometry : pyval)
    (ring more : list pyval) :
  py_get vdata "geojson" (PDict []) = Value gd ->
  first_geometry gd = Value geometry ->
  member "type" geometry = Some (PStr "Polygon") ->
  member "coordinates" geometry = Some (PList (PList ring :: more)) ->
  (3 <= List.length ring)%nat ->
  Forall (fun item => is_list item = true) ring ->
  Exists (fun item => is_pair item = false) ring ->
  verify_geojson vdata = Err500 ValueError.
Proof.
  intros Hg Hgeo Hty Hring Hlen Hlists Hex.
  rewrite (verify_resolved vdata gd geometry _ more Hg Hgeo Hty Hring).
  simpl.
  destruct (Z.of_nat (List.length ring) <? 3) eqn:Hlt;
    [apply Z.ltb_lt in Hlt; lia|].
  rewrite (comprehension_raise leaflet_order ring ValueError).
  - reflexivity.
  - revert Hlists. apply Forall_impl. intros item Hl.
    destruct (leaflet_order_list item Hl) as [(lng & lat & _ & H)|[_ H]];
      eauto.
  - rewrite Exists_exists in *. destruct Hex as (item & Hin & Hp).
    exists item. split; trivial.
    rewrite Forall_forall in Hlists.
    destruct (leaflet_order_list item (Hlists item Hin))
      as [(lng & lat & -> & _)|[_ H]]; [discriminate | exact H].
Qed.

Lemma altitude_not_extracted_witness :
  verify_geojson (verify_request (polygon_geometry with_altitude))
  = Err500 ValueError.
Proof.
  apply (altitude_not_extracted
           (verify_request (polygon_geometry with_altitude))
           (polygon_geometry with_altitude) (polygon_geometry with_altitude)
           with_altitude []);
    [reflexivity | reflexivity | reflexivity | reflexivity | simpl; lia | |].
  - repeat constructor.
  - apply Exists_cons_tl, Exists_cons_hd. reflexivity.
Defined.

Lemma swap_pair_twice (pairs : list (pyval * pyval)) :
  map (fun c => pair_val (swap_pair c)) (map swap_pair pairs)
  = map pair_val pairs.
Proof.
  induction pairs as [|[a b] l IH]; simpl; trivial. now rewrite IH.
Qed.

Lemma verify_bare_pairs (pairs : list (pyval * pyval)) :
  (3 <= List.length pairs)%nat ->
  verify_geojson (verify_request (polygon_geometry (map pair_val pairs)))
  = Ok200 (PDict [("coordinates",
                   PList (map (fun c => pair_val (swap_pair c)) pairs));
                  ("properties", PDict [])]).
Proof.
  intros Hlen.
  rewrite (verify_resolved _ (polygon_geometry (map pair_val pairs))
             (polygon_geometry (map pair_val pairs)) (PList (map pair_val pairs)) [])
    by reflexivity.
  simpl. rewrite length_map.
  destruct (Z.of_nat (List.length pairs) <? 3) eqn:Hlt;
    [apply Z.ltb_lt in Hlt; lia|].
  now rewrite leaflet_order_pairs.
Qed.

(** The swap is its own inverse: the coordinates the extractor returns
    for a bare Polygon, sent back to it as the ring of a bare Polygon,
    come back as the ring it was given first. *)
Theorem extract_twice (pairs : list (pyval * pyval)) :
  (3 <= List.length pairs)%nat ->
  exists out,
    verify_geojson (verify_request (polygon_geometry (map pair_val pairs)))
      = Ok200 (PDict [("coordinates", PList out); ("properties", PDict [])]) /\
    verify_geojson (verify_request (polygon_geometry out))
      = Ok200 (PDict [("coordinates", PList (map pair_val pairs));
                      ("properties", PDict [])]).
Proof.
  intros Hlen. exists (map (fun c => pair_val (swap_pair c)) pairs). split.
  - now apply verify_bare_pairs.
  - replace (map (fun c => pair_val (swap_pair c)) pairs)
      with (map pair_val (map swap_pair pairs)) by (now rewrite map_map).
    rewrite verify_bare_pairs by (rewrite length_map; exact Hlen).
    now rewrite swap_pair_twice.
Qed.

Lemma extract_twice_witness :
  exists out,
    verify_geojson (verify_request (polygon_geometry (map pair_val open_text_ring)))
      = Ok200 (PDict [("coordinates", PList out); ("properties", PDict [])]) /\
    verify_geojson (verify_request (polygon_geometry out))
      = Ok200 (PDict [("coordinates", PList (map pair_val open_text_ring));
                      ("properties", PDict [])]).
Proof. apply (extract_twice open_text_ring). simpl. lia. Defined.

(** ** Members the extractor does not read, and members that are missing *)

Lemma bare_polygon (d : list (string * pyval)) :
  lookup "type" d = Some (PStr "Polygon") ->
  first_geometry (PDict d) = Value (PDict d) /\
  first_properties (PDict d) = Value (PDict []).
Proof.
  intros Ht. unfold first_geometry, first_properties. simpl.
  rewrite Ht. split; reflexivity.
Qed.

(** Of a bare Polygon the extractor reads the type and the first ring:
    the rings after it (the holes) and every other member change nothing
    in the answer. *)
Theorem holes_ignored (d : list (string * pyval)) (ring : pyval)
    (more : list pyval) :
  lookup "type" d = Some (PStr "Polygon") ->
  lookup "coordinates" d = Some (PList (ring :: more)) ->
  verify_geojson (verify_request (PDict d))
  = verify_geojson
      (verify_request
         (PDict [("type", PStr "Polygon"); ("coordinates", PList [ring])])).
Proof.
  intros Ht Hc. destruct (bare_polygon d Ht) as [Hg Hp].
  rewrite (verify_resolved (verify_request (PDict d)) (PDict d) (PDict d)
             ring more eq_refl Hg Ht Hc).
  rewrite (verify_resolved
             (verify_request
                (PDict [("type", PStr "Polygon"); ("coordinates", PList [ring])]))
             (PDict [("type", PStr "Polygon"); ("coordinates", PList [ring])])
             (PDict [("type", PStr "Polygon"); ("coordinates", PList [ring])])
             ring [] eq_refl eq_refl eq_refl eq_refl).
  now rewrite Hp.
Qed.

Lemma holes_ignored_witness :
  verify_geojson (verify_request (PDict polygon_with_hole))
  = verify_geojson
      (verify_request
         (PDict [("type", PStr "Polygon");
                 ("coordinates", PList [PList (unit_square ++ [point 0 0])])])).
Proof.
  apply (holes_ignored polygon_with_hole (PList (unit_square ++ [point 0 0]))
           [PList same_point_thrice]); reflexivity.
Defined.

Lemma verify_body_reject (data : pyval) (msg : string) :
  verify_body data = Reject msg ->
  (exists gd, py_get data "geojson" (PDict []) = Value gd /\
              first_geometry gd = Reject msg) \/
  msg = "Only Polygon geometry supported" \/
  msg = "Invalid polygon coordinates".
Proof.
  unfold verify_body. intros H. apply bind_reject in H.
  destruct H as [H|(gd & Hgd & H)]; [now apply py_get_no_reject in H|].
  apply bind_reject in H.
  destruct H as [H|(geometry & _ & H)]; [left; eauto|].
  right. apply bind_reject in H.
  destruct H as [H|(gt & _ & H)]; [now apply py_get_no_reject in H|].
  destruct (py_is_str gt "Polygon"); simpl in H; [|left; now inversion H].
  right. apply bind_reject in H.
  destruct H as [H|(rings & _ & H)]; [now apply py_get_no_reject in H|].
  apply bind_reject in H.
  destruct H as [H|(ring & _ & H)]; [now apply py_index0_no_reject in H|].
  apply bind_reject in H.
  destruct H as [H|(n & _ & H)]; [now apply py_len_no_reject in H|].
  destruct (n <? 3); [now inversion H|]. exfalso.
  apply bind_reject in H.
  destruct H as [H|(items & _ & H)]; [now apply py_iter_no_reject in H|].
  apply bind_reject in H.
  destruct H as [H|(leaflet & _ & H)];
    [now apply comprehension_no_reject in H;
       [|intros; apply leaflet_order_no_reject]|].
  apply bind_reject in H.
  destruct H as [H|(props & _ & H)];
    [now apply first_properties_no_reject in H|discriminate].
Qed.

(** The extractor answers "No features found in GeoJSON" exactly to a
    FeatureCollection whose features member is missing, empty, null, or
    any other value Python holds for false. *)
Theorem no_features_exactly (d : list (string * pyval)) :
  verify_geojson (verify_request (PDict d))
    = Bad400 "No features found in GeoJSON"
  <-> lookup "type" d = Some (PStr "FeatureCollection") /\
      py_truthy (or_default (lookup "features" d) (PList [])) = false.
Proof.
  unfold verify_geojson. rewrite handle_bad. split.
  - intros H. apply verify_body_reject in H.
    destruct H as [(gd & Hgd & H)|[H|H]]; try discriminate.
    inversion Hgd; subst gd. clear Hgd.
    unfold first_geometry in H. simpl in H.
    destruct (lookup "type" d) as [t|]; simpl in H; try discriminate.
    + destruct (py_is_str t "FeatureCollection") eqn:Hfc.
      * apply py_is_str_true in Hfc. subst t. split; trivial.
        destruct (lookup "features" d) as [fs|]; simpl in *; trivial.
        destruct (py_truthy fs); simpl in H; trivial. exfalso.
        apply bind_reject in H.
        destruct H as [H|(f & _ & H)]; [now apply py_index0_no_reject in H|].
        now apply py_get_no_reject in H.
      * exfalso. destruct (py_is_str t "Feature"); simpl in H;
          [|discriminate]. now destruct (lookup "geometry" d).
  - intros [Ht Hf]. unfold verify_body, first_geometry. simpl.
    rewrite Ht. simpl.
    destruct (lookup "features" d) as [fs|]; simpl in *; [|reflexivity].
    now rewrite Hf.
Qed.

(** A member that is missing is answered 400, not 500: a request with no
    geojson member and a Feature with no geometry member get the
    unsupported-geometry error, a Polygon with no coordinates member the
    insufficient-coordinates error. *)
Theorem missing_members (dd d : list (string * pyval))
    (vdata gd geometry : pyval) :
  lookup "geojson" dd = None ->
  lookup "type" d = Some (PStr "Feature") ->
  lookup "geometry" d = None ->
  py_get vdata "geojson" (PDict []) = Value gd ->
  first_geometry gd = Value geometry ->
  member "type" geometry = Some (PStr "Polygon") ->
  member "coordinates" geometry = None ->
  verify_geojson (PDict dd) = Bad400 "Only Polygon geometry supported" /\
  verify_geojson (verify_request (PDict d))
    = Bad400 "Only Polygon geometry supported" /\
  verify_geojson vdata = Bad400 "Invalid polygon coordinates".
Proof.
  intros Hdd Ht Hgeo Hg Hfg Hty Hc. repeat split.
  - unfold verify_geojson, verify_body. simpl. now rewrite Hdd.
  - unfold verify_geojson, verify_body, first_geometry. simpl.
    rewrite Ht. simpl. now rewrite Hgeo.
  - unfold verify_geojson, verify_body. rewrite Hg. simpl bind.
    rewrite Hfg. simpl bind.
    destruct geometry as [| | | | | |g]; try discriminate.
    simpl in Hty, Hc. simpl py_get. now rewrite Hty, Hc.
Qed.

Lemma missing_members_witness :
  verify_geojson (PDict []) = Bad400 "Only Polygon geometry supported" /\
  verify_geojson (verify_request (PDict [("type", PStr "Feature")]))
    = Bad400 "Only Polygon geometry supported" /\
  verify_geojson (verify_request (PDict [("type", PStr "Polygon")]))
    = Bad400 "Invalid polygon coordinates".
Proof.
  apply (missing_members [] [("type", PStr "Feature")]
           (verify_request (PDict [("type", PStr "Polygon")]))
           (PDict [("type", PStr "Polygon")])
           (PDict [("type", PStr "Polygon")])); reflexivity.
Defined.

(** ** The count and the ring of an answer *)

(** In every answer of the calculator, coordinate_count is the number of
    entries of the input list, and the ring holds as many vertices as the
    list has entries, or one more. *)
Theorem count_and_ring_length (L : libraries) (now : string)
    (data body : pyval) :
  calculate_area L now data = Ok200 body ->
  exists coords ring,
    member "coordinates" data = Some (PList coords) /\
    response_property "coordinate_count" body
      = Some (PInt (Z.of_nat (List.length coords))) /\
    response_ring body = Some (PList ring) /\
    (List.length ring = List.length coords \/
     List.length ring = S (List.length coords)).
Proof.
  intros H. apply calculate_ok in H.
  destruct H as (rounded & ring & p & area & per & Hr & Hc & _ & _ & _ & ->).
  apply rounded_coords_list in Hr. destruct Hr as (coords & Hm & _ & Hall).
  apply Forall2_length in Hall.
  apply close_ring_value in Hc. destruct Hc as (first & rest & Hrounded & ->).
  exists coords. eexists. split; [exact Hm|]. split; [|split].
  - simpl. now rewrite Hall.
  - reflexivity.
  - rewrite length_map. destruct (vertex_eqb first _).
    + left. congruence.
    + right. rewrite length_app. simpl. lia.
Qed.

Lemma count_and_ring_length_witness :
  exists coords ring,
    member "coordinates" (calculate_request unit_square)
      = Some (PList coords) /\
    response_property "coordinate_count"
      (unit_square_answer "2024-05-01T10:00:00")
      = Some (PInt (Z.of_nat (List.length coords))) /\
    response_ring (unit_square_answer "2024-05-01T10:00:00")
      = Some (PList ring) /\
    (List.length ring = List.length coords \/
     List.length ring = S (List.length coords)).
Proof.
  apply (count_and_ring_length lattice_libs "2024-05-01T10:00:00"
           (calculate_request unit_square)).
  reflexivity.
Defined.

(** ** An answer sent back to the calculator *)

Lemma geojson_order_ring (ring : list vertex) :
  comprehension geojson_order (map leaflet_val ring)
  = Value (map (fun v => (num_val (fst v), num_val (snd v))) ring).
Proof.
  induction ring as [|v t IH]; simpl; trivial. now rewrite IH.
Qed.

Lemma round_coordinates_stable (L : libraries) (ring : list vertex) :
  Forall (stable L) ring ->
  round_coordinates L
    (map (fun v => (num_val (fst v), num_val (snd v))) ring) 6
  = Value ring.
Proof.
  unfold round_coordinates.
  induction 1 as [|[x y] t [Hx Hy] _ IH]; simpl; trivial.
  simpl in Hx, Hy. now rewrite Hx, Hy, IH.
Qed.

Lemma close_ring_again (rounded ring : list vertex) :
  close_ring rounded = Value ring ->
  (forall first, hd_error ring = Some first -> vertex_eqb first first = true) ->
  close_ring ring = Value ring.
Proof.
  intros H Hrefl. apply close_ring_value in H.
  destruct H as (first & rest & -> & ->).
  destruct (vertex_eqb first (last (first :: rest) first)) eqn:E.
  - unfold close_ring. now rewrite E.
  - assert (Hff : vertex_eqb first first = true) by (now apply Hrefl).
    simpl app. unfold close_ring.
    change (first :: rest ++ [first]) with ((first :: rest) ++ [first]).
    now rewrite last_last, Hff.
Qed.

(** The coordinates the extractor reads from an answer, sent to the
    calculator again, are answered with the same ring and the same two
    areas, when rounding leaves the values of the ring as they are and
    its first vertex equals itself (it holds no NaN): closing and
    rounding are not applied twice. *)
Theorem answer_resubmitted (L : libraries) (now1 now2 : string)
    (data body : pyval) (rounded ring : list vertex) :
  calculate_area L now1 data = Ok200 body ->
  rounded_coords L data = Value rounded ->
  close_ring rounded = Value ring ->
  Forall (stable L) ring ->
  (forall first, hd_error ring = Some first -> vertex_eqb first first = true) ->
  exists out properties area_ha area_m2 n,
    body = feature_collection ring area_ha area_m2 now1 n /\
    verify_geojson (verify_request body)
      = Ok200 (PDict [("coordinates", PList out);
                      ("properties", properties)]) /\
    calculate_area L now2 (calculate_request out)
      = Ok200 (feature_collection ring area_ha area_m2 now2
                 (Z.of_nat (List.length ring))).
Proof.
  intros H Hr Hc Hstable Hrefl.
  apply calculate_ok in H.
  destruct H as (rounded' & ring' & p & area & per & Hr' & Hc' & Hp & Hv & Ha & ->).
  rewrite Hr in Hr'. inversion Hr'; subst rounded'.
  rewrite Hc in Hc'. inversion Hc'; subst ring'. clear Hr' Hc'.
  assert (Hlen : (3 <= List.length ring)%nat).
  { pose proof (close_ring_length _ _ Hc).
    destruct (rounded_coords_items L data rounded Hr) as (_ & _ & _ & _ & _ & H3).
    lia. }
  exists (map leaflet_val ring). do 4 eexists.
  split; [reflexivity|]. split.
  - now apply verify_feature_collection.
  - apply calculate_ok. exists ring, ring, p, area, per.
    repeat split; trivial.
    + unfold rounded_coords, calculate_request. simpl. rewrite length_map.
      destruct (Z.of_nat (List.length ring) <? 3) eqn:Hlt;
        [apply Z.ltb_lt in Hlt; lia|].
      rewrite geojson_order_ring. simpl.
      now apply round_coordinates_stable.
    + now apply (close_ring_again rounded).
Qed.

Lemma answer_resubmitted_witness :
  exists out properties area_ha area_m2 n,
    unit_square_answer "2024-05-01T10:00:00"
      = feature_collection unit_square_ring area_ha area_m2
          "2024-05-01T10:00:00" n /\
    verify_geojson (verify_request (unit_square_answer "2024-05-01T10:00:00"))
      = Ok200 (PDict [("coordinates", PList out);
                      ("properties", properties)]) /\
    calculate_area lattice_libs "2024-05-01T10:00:01" (calculate_request out)
      = Ok200 (feature_collection unit_square_ring area_ha area_m2
                 "2024-05-01T10:00:01"
                 (Z.of_nat (List.length unit_square_ring))).
Proof.
  apply (answer_resubmitted lattice_libs "2024-05-01T10:00:00"
           "2024-05-01T10:00:01" (calculate_request unit_square)
           (unit_square_answer "2024-05-01T10:00:00")
           [(NInt 0, NInt 0); (NInt 1, NInt 0); (NInt 1, NInt 1);
            (NInt 0, NInt 1)]
           unit_square_ring).
  - reflexivity.
  - reflexivity.
  - reflexivity.
  - repeat constructor.
  - intros first H. inversion H. reflexivity.
Defined.

(** ** [round_coordinates] on its own *)



(** Rounding to a precision that is not negative leaves integer
    coordinates as they are. *)
Theorem round_coordinates_integers (L : libraries) (points : list (Z * Z))
    (precision : Z) :
  0 <= precision ->
  round_coordinates L (map (fun p => (PInt (fst p), PInt (snd p))) points)
    precision
  = Value (map (fun p => (NInt (fst p), NInt (snd p))) points).
Proof.
  intros Hp. unfold round_coordinates.
  apply comprehension_Forall2.
  induction points as [|[a b] t IH]; simpl; constructor; trivial.
  unfold py_round, int_round. simpl.
  destruct (0 <=? precision) eqn:E; [reflexivity|].
  apply Z.leb_gt in E. lia.
Qed.

Lemma round_coordinates_integers_witness :
  round_coordinates lattice_libs
    (map (fun p => (PInt (fst p), PInt (snd p))) [(103, 1); (-7, 0)]) 6
  = Value (map (fun p => (NInt (fst p), NInt (snd p))) [(103, 1); (-7, 0)]).
Proof.
  apply (round_coordinates_integers lattice_libs [(103, 1); (-7, 0)] 6). lia.
Defined.

(** ** Closing, in both directions *)

Lemma SFeqb_sym (x y : spec_float) : SFeqb x y = SFeqb y x.
Proof.
  unfold SFeqb, SFcompare.
  destruct x as [sx|sx| |sx mx ex], y as [sy|sy| |sy my ey];
    try reflexivity;
    try (destruct sx; reflexivity); try (destruct sy; reflexivity);
    try (destruct sx, sy; reflexivity).
  rewrite (Z.compare_antisym ex ey).
  rewrite !Pos.compare_cont_spec. simpl.
  rewrite (Pos.compare_antisym mx my).
  destruct sx, sy; try reflexivity;
    destruct (ex ?= ey); simpl; try reflexivity;
    destruct (mx ?= my)%positive; reflexivity.
Qed.

Lemma float_eqb_sym (x y : float) : PrimFloat.eqb x y = PrimFloat.eqb y x.
Proof. rewrite !eqb_spec. apply SFeqb_sym. Qed.

Lemma num_eqb_sym (a b : pynum) : num_eqb a b = num_eqb b a.
Proof.
  destruct a, b; simpl; trivial.
  - apply Z.eqb_sym.
  - apply float_eqb_sym.
Qed.

Lemma vertex_eqb_sym (a b : vertex) : vertex_eqb a b = vertex_eqb b a.
Proof.
  unfold vertex_eqb. now rewrite (num_eqb_sym (fst a)), (num_eqb_sym (snd a)).
Qed.

Lemma close_ring_rev_length (rounded ring ring' : list vertex) :
  close_ring rounded = Value ring ->
  close_ring (rev rounded) = Value ring' ->
  List.length ring' = List.length ring.
Proof.
  intros H H'. apply close_ring_value in H, H'.
  destruct H as (first & rest & Hr & ->).
  destruct H' as (first' & rest' & Hr' & ->).
  assert (Hfirst' : first' = last rounded first).
  { rewrite <- (hd_rev rounded first), Hr'. reflexivity. }
  assert (Hlast' : last (rev rounded) first' = first).
  { rewrite last_rev, Hr. reflexivity. }
  rewrite Hlast', Hfirst', (vertex_eqb_sym (last rounded first) first).
  destruct (vertex_eqb first (last rounded first));
    rewrite ?length_app, ?length_rev; reflexivity.
Qed.

Lemma rounded_coords_rev (L : libraries) (coords : list pyval)
    (r1 r2 : list vertex) :
  rounded_coords L (calculate_request coords) = Value r1 ->
  rounded_coords L (calculate_request (rev coords)) = Value r2 ->
  r2 = rev r1.
Proof.
  intros Hr1 Hr2. apply rounded_coords_items in Hr1, Hr2.
  destruct Hr1 as (c1 & i1 & Hg1 & Hi1 & Hall1 & _).
  destruct Hr2 as (c2 & i2 & Hg2 & Hi2 & Hall2 & _).
  inversion Hg1; subst c1. inversion Hi1; subst i1.
  inversion Hg2; subst c2. inversion Hi2; subst i2.
  apply Forall2_reversed in Hall1.
  apply (Forall2_functional _ _ _ _ (rounds_to_functional L) Hall2 Hall1).
Qed.

(** Whether the ring is closed by appending does not depend on the
    direction the vertices are listed in: when the calculator accepts a
    list and its reverse, the rings of the two answers hold the same
    number of vertices. *)
Theorem closing_same_both_ways (L : libraries) (now1 now2 : string)
    (coords : list pyval) (body1 body2 : pyval) :
  calculate_area L now1 (calculate_request coords) = Ok200 body1 ->
  calculate_area L now2 (calculate_request (rev coords)) = Ok200 body2 ->
  exists ring1 ring2,
    response_ring body1 = Some (PList ring1) /\
    response_ring body2 = Some (PList ring2) /\
    List.length ring2 = List.length ring1.
Proof.
  intros H1 H2. apply calculate_ok in H1, H2.
  destruct H1 as (r1 & ring1 & p1 & a1 & q1 & Hr1 & Hc1 & _ & _ & _ & ->).
  destruct H2 as (r2 & ring2 & p2 & a2 & q2 & Hr2 & Hc2 & _ & _ & _ & ->).
  rewrite (rounded_coords_rev L coords r1 r2 Hr1 Hr2) in Hc2.
  exists (map vertex_val ring1), (map vertex_val ring2).
  repeat split. rewrite !length_map.
  now apply (close_ring_rev_length r1).
Qed.

Lemma closing_same_both_ways_witness :
  exists ring1 ring2,
    response_ring (unit_square_answer "2024-05-01T10:00:00")
      = Some (PList ring1) /\
    response_ring (reversed_square_answer "2024-05-01T10:00:01")
      = Some (PList ring2) /\
    List.length ring2 = List.length ring1.
Proof.
  apply (closing_same_both_ways lattice_libs "2024-05-01T10:00:00"
           "2024-05-01T10:00:01" unit_square); reflexivity.
Defined.

(** ** The invalid-geometry answer *)

(** The calculator answers "Invalid polygon geometry" exactly when the
    input parses, shapely builds the polygon of the closed ring, and its
    [is_valid] is false: the check comes after rounding and closing and
    before any area is computed. *)
Theorem invalid_geometry_exactly (L : libraries) (now : string)
    (data : pyval) :
  calculate_area L now data = Bad400 "Invalid polygon geometry"
  <-> exists rounded ring p,
        rounded_coords L data = Value rounded /\
        close_ring rounded = Value ring /\
        Polygon L ring = inr p /\
        is_valid L p = false.
Proof.
  unfold calculate_area. rewrite handle_bad, calculate_body_stages. split.
  - intros H. apply bind_reject in H.
    destruct H as [H|(rounded & Hr & H)];
      [apply rounded_coords_reject in H; discriminate|].
    apply bind_reject in H.
    destruct H as [H|(ring & Hc & H)]; [now apply close_ring_no_reject in H|].
    exists rounded, ring. unfold area_response in H.
    destruct (Polygon L ring) as [e|p]; simpl in H; try discriminate.
    exists p. repeat split; trivial.
    destruct (is_valid L p); trivial. simpl in H. exfalso.
    destruct (polygon_area_perimeter L _ _) as [e|[a q]]; discriminate.
  - intros (rounded & ring & p & Hr & Hc & Hp & Hv).
    rewrite Hr. simpl. rewrite Hc. simpl. unfold area_response.
    rewrite Hp. simpl. now rewrite Hv.
Qed.
